(** * A shallow embedding of the dimension subsystem of csdfpy

    Sources: [src/csdfpy/_independent_variables.py] (the quantitative
    variables, the linearly sampled dimension and its reciprocal),
    [src/csdfpy/ControlledVariable.py] (the facade that selects a variant and
    forwards attribute access) and [src/studium/nonLinearQuantitative.py]
    (the older non-linear quantitative variable).

    Python exceptions are the constructors of [py_error]; a Python function
    that may raise returns a [result].  Physical quantities are a value with a
    unit; floating point values are modelled by rationals extended with the
    IEEE infinities and NaN. *)

From Stdlib Require Import ZArith QArith String Ascii List Bool Lia Permutation.
Import ListNotations.

Open Scope Z_scope.

(** ** Python exceptions and the error monad *)

Inductive py_error :=
| TypeError
| ValueError
| IndexError
| AttributeError
| NotImplementedError
| UnboundLocalError
| FormatError
| DimensionalityError
| Exception (msg : string).

Inductive result (A : Type) :=
| Ok (a : A)
| Err (e : py_error).
Arguments Ok {A} a.
Arguments Err {A} e.

Definition bind {A B} (m : result A) (k : A -> result B) : result B :=
  match m with
  | Ok a => k a
  | Err e => Err e
  end.

Notation "x <- m ;; k" := (bind m (fun x => k))
  (at level 61, m at next level, right associativity).

(** Python values handed to a setter: the setters start with an
    [isinstance] check.  [bool] is a subclass of [int] in Python. *)
Inductive pyval :=
| PStr (s : string)
| PInt (z : Z)
| PBool (b : bool)
| PNone.

Definition py_isinstance_str (v : pyval) : option string :=
  match v with PStr s => Some s | _ => None end.

(** The integer an [int] or a [bool] compares as ([True == 1],
    [False == 0]); [None] for the other values: [isinstance(v, int)] fails
    on them, and ordering them against an [int] raises [TypeError].  The
    value itself, not this integer, is what an assignment stores. *)
Definition py_int_value (v : pyval) : option Z :=
  match v with
  | PInt z => Some z
  | PBool b => Some (if b then 1 else 0)
  | _ => None
  end.

(** ** Extended reals (numpy float64 values)

    A finite value is held as an exact rational: the model follows which
    values are finite, infinite or [nan] and their signs, not the rounding
    of float64 arithmetic. *)

Inductive ext :=
| Fin (q : Q)
| PInf
| NInf
| NaN.

(** [j * x] for an integer index [j] (numpy multiplication of an index
    array by a scalar quantity). *)
Definition ext_zmul (j : Z) (x : ext) : ext :=
  match x with
  | Fin q => Fin (inject_Z j * q)
  | PInf => if j =? 0 then NaN else if 0 <? j then PInf else NInf
  | NInf => if j =? 0 then NaN else if 0 <? j then NInf else PInf
  | NaN => NaN
  end.

Definition ext_scale (s : Q) (x : ext) : ext :=
  match x with
  | Fin q => Fin (q * s)
  | e => e
  end.

(** [x.value == 0.0] and [x.value < 0.0] *)
Definition ext_is_zero (x : ext) : bool :=
  match x with Fin q => Qeq_bool q 0 | _ => false end.

Definition ext_lt0 (x : ext) : bool :=
  match x with
  | Fin q => negb (Qle_bool 0 q)
  | NInf => true
  | _ => false
  end.

(** ** Units and quantities

    A unit is a power of one physical dimension with its scale to the
    coherent unit ([G] is the flux density [1e-4 T]).  [unit ** -1] negates
    the power and inverts the scale. *)

Record unit_t := mkUnit { u_dim : string; u_pow : Z; u_scale : Q }.

Definition unit_inv (u : unit_t) : unit_t :=
  mkUnit (u_dim u) (- u_pow u) (Qinv (u_scale u)).

Definition unit_eqb (u v : unit_t) : bool :=
  String.eqb (u_dim u) (u_dim v) && (u_pow u =? u_pow v)
  && Qeq_bool (u_scale u) (u_scale v)
  && Z.eqb (Qnum (u_scale u)) (Qnum (u_scale v))
  && Pos.eqb (Qden (u_scale u)) (Qden (u_scale v)).

Definition unit_consistent (u v : unit_t) : bool :=
  String.eqb (u_dim u) (u_dim v) && (u_pow u =? u_pow v).

Record quantity := mkQ { qval : ext; qunit : unit_t }.

(** [q.to(u)]: the value of [q] expressed in [u]. *)
Definition qto (q : quantity) (u : unit_t) : result ext :=
  if unit_eqb (qunit q) u then Ok (qval q)
  else if unit_consistent (qunit q) u
  then Ok (ext_scale (u_scale (qunit q) / u_scale u) (qval q))
  else Err DimensionalityError.

(** ** Python strings: [str.strip()] and [str.split()]

    A Python [str] is a sequence of code points; here it is its UTF-8
    encoding, a byte string, read back one code point at a time by
    [py_chars].  [str.strip()] and [str.split()] with no argument treat as
    whitespace the code points for which [str.isspace()] holds: tab, line
    feed, vertical tab, form feed, carriage return, the separators
    [\x1c]-[\x1f], the space, [\x85], the no-break space [\xa0], U+1680,
    U+2000 to U+200A, U+2028, U+2029, U+202F, U+205F and U+3000. *)

Definition py_whitespace : list Z :=
  [9; 10; 11; 12; 13; 28; 29; 30; 31; 32; 133; 160; 5760;
   8192; 8193; 8194; 8195; 8196; 8197; 8198; 8199; 8200; 8201; 8202;
   8232; 8233; 8239; 8287; 12288].

Definition byte (n : Z) : ascii := ascii_of_nat (Z.to_nat n).

(** The UTF-8 encoding of a code point below [0x10000]. *)
Definition utf8_encode (cp : Z) : string :=
  if cp <? 128 then String (byte cp) EmptyString
  else if cp <? 2048 then
    String (byte (192 + cp / 64)) (String (byte (128 + cp mod 64)) EmptyString)
  else
    String (byte (224 + cp / 4096))
      (String (byte (128 + (cp / 64) mod 64))
         (String (byte (128 + cp mod 64)) EmptyString)).

(** A UTF-8 continuation byte, [0b10xxxxxx]. *)
Definition is_cont (c : ascii) : bool :=
  let n := nat_of_ascii c in ((128 <=? n) && (n <=? 191))%nat.

(** The code points of a string, each as its encoding: a byte followed by
    its continuation bytes. *)
Fixpoint py_chars (s : string) : list string :=
  match s with
  | EmptyString => []
  | String c s' =>
      match py_chars s' with
      | (String d _ as x) :: xs =>
          if is_cont d then String c x :: xs
          else String c EmptyString :: x :: xs
      | l => String c EmptyString :: l
      end
  end.

Definition py_join (l : list string) : string :=
  fold_right String.append EmptyString l.

(** [ch.isspace()] for one code point. *)
Definition is_space_char (x : string) : bool :=
  existsb (String.eqb x) (map utf8_encode py_whitespace).

Fixpoint drop_space (l : list string) : list string :=
  match l with
  | [] => []
  | x :: l' => if is_space_char x then drop_space l' else l
  end.

Definition py_strip (s : string) : string :=
  py_join (rev (drop_space (rev (drop_space (py_chars s))))).

(** [str.split()] with no separator: maximal runs of non-space code
    points. *)
Fixpoint split_go (l : list string) (cur : string) : list string :=
  match l with
  | [] =>
      match cur with EmptyString => [] | _ => [cur] end
  | x :: l' =>
      if is_space_char x then
        match cur with
        | EmptyString => split_go l' EmptyString
        | _ => cur :: split_go l' EmptyString
        end
      else split_go l' (cur ++ x)
  end.

Definition py_split (s : string) : list string :=
  split_go (py_chars s) EmptyString.

(** What [py_chars] produces: each piece is a byte followed by continuation
    bytes only ([chunk_ok]), and every piece but the first starts with a
    byte that is not a continuation byte ([lead_ok]). *)
Definition chunk_ok (x : string) : bool :=
  match x with
  | String _ r => forallb is_cont (list_ascii_of_string r)
  | EmptyString => false
  end.

Definition lead_ok (x : string) : bool :=
  match x with
  | String b _ => negb (is_cont b)
  | EmptyString => false
  end.

(** [lst[0]] *)
Definition py_index0 {A} (l : list A) : result A :=
  match l with
  | x :: _ => Ok x
  | [] => Err IndexError
  end.

Definition all_space (s : string) : bool :=
  forallb is_space_char (py_chars s).

(** ** The quantity-string parser *)

Definition dimensionless : unit_t := mkUnit "" 0 1.
Definition gauss : unit_t := mkUnit "magnetic flux density" 1 (1 # 10000).
Definition tesla : unit_t := mkUnit "magnetic flux density" 1 1.
Definition millitesla : unit_t := mkUnit "magnetic flux density" 1 (1 # 1000).
Definition second : unit_t := mkUnit "time" 1 1.

Definition unit_of_symbol (s : string) : option unit_t :=
  if String.eqb s "G" then Some gauss
  else if String.eqb s "T" then Some tesla
  else if String.eqb s "mT" then Some millitesla
  else if String.eqb s "s" then Some second
  else None.

Definition digit_val (c : ascii) : option Z :=
  let n := nat_of_ascii c in
  if ((48 <=? n) && (n <=? 57))%nat then Some (Z.of_nat n - 48) else None.

Fixpoint parse_digits (s : string) (acc : Z) : option Z :=
  match s with
  | EmptyString => Some acc
  | String c s' =>
      match digit_val c with
      | Some d => parse_digits s' (10 * acc + d)
      | None => None
      end
  end.

Definition parse_number (s : string) : option ext :=
  if String.eqb s "1/0" then Some PInf else
  match s with
  | String "-" (String _ _ as s') =>
      option_map (fun z => Fin (inject_Z (- z))) (parse_digits s' 0)
  | String _ _ => option_map (fun z => Fin (inject_Z z)) (parse_digits s 0)
  | EmptyString => None
  end.

(** Modelled from the spec: [_assign_and_check_unit_consistency] of
    [csdfpy._utils] and the string parser of [csdfpy.unit] (neither is in
    the repository's files).  A quantity string is ["<number> <unit>"] (a
    lone number is dimensionless, ["1/0"] is infinite); a string that does
    not parse is a [FormatError]; when a unit is expected, a quantity of
    another dimensionality is a [DimensionalityError]. *)
Definition assign_and_check_unit_consistency
    (s : string) (expected : option unit_t) : result quantity :=
  q <- match py_split s with
       | [num] =>
           match parse_number num with
           | Some v => Ok (mkQ v dimensionless)
           | None => Err FormatError
           end
       | [num; sym] =>
           match parse_number num, unit_of_symbol sym with
           | Some v, Some u => Ok (mkQ v u)
           | _, _ => Err FormatError
           end
       | _ => Err FormatError
       end ;;
  match expected with
  | None => Ok q
  | Some u => if unit_consistent (qunit q) u then Ok q
              else Err DimensionalityError
  end.

(** Modelled from the spec: [_check_value_object(value, unit)]: an absent
    value ([None]) is zero in the dimension's unit, a string is parsed and
    checked as above. *)
Definition check_value_object (v : option string) (u : unit_t)
  : result quantity :=
  match v with
  | None => Ok (mkQ (Fin 0) u)
  | Some s => assign_and_check_unit_consistency s (Some u)
  end.

(** ** [BaseIndependentVariable] (and [ReciprocalVariable], its subclass
    with no member of its own) *)

Record base_var := mkBase {
  reference_offset : quantity;
  origin_offset : quantity;
  quantity_name : option string;   (* [_quantity] *)
  period : quantity;
  label : string;
  unit : unit_t
}.

(** [unit.physical_type] of astropy for the units above and their powers:
    the dimension's name for its first power (["magnetic flux density"] for
    [G], [T] and [mT], ["time"] for [s]), ["dimensionless"], ["frequency"]
    for [s**-1], and ["unknown"] for a power with no name. *)
Definition physical_type (u : unit_t) : string :=
  if u_pow u =? 0 then "dimensionless"
  else if u_pow u =? 1 then u_dim u
  else if String.eqb (u_dim u) "time" && (u_pow u =? -1) then "frequency"
  else "unknown".

(** Modelled from the repository's docstrings: [_check_quantity] of
    [csdfpy._utils] (not in the repository's files) gives a variable built
    without a quantity the physical type of its unit (the facade's
    docstrings print ["magnetic flux density"] for a variable in [G] built
    with no quantity, and no quantity for its reciprocal in [G**-1]); a
    quantity name that is given is kept. *)
Definition check_quantity (q : option string) (u : unit_t) : option string :=
  match q with
  | None => Some (physical_type u)
  | Some n => Some n
  end.

(** [_set_parameters]: a zero period is coerced to [inf] in its unit. *)
Definition set_parameters (ro oo : option string) (qn : option string)
    (per : option string) (lab : string) (u : unit_t) : result base_var :=
  r <- check_value_object ro u ;;
  o <- check_value_object oo u ;;
  p <- check_value_object per u ;;
  let p := if ext_is_zero (qval p) then mkQ PInf (qunit p) else p in
  Ok (mkBase r o (check_quantity qn u) p lab u).

Definition with_reference_offset (b : base_var) (q : quantity) : base_var :=
  mkBase q (origin_offset b) (quantity_name b) (period b) (label b) (unit b).
Definition with_origin_offset (b : base_var) (q : quantity) : base_var :=
  mkBase (reference_offset b) q (quantity_name b) (period b) (label b) (unit b).
Definition with_quantity_name (b : base_var) (q : option string) : base_var :=
  mkBase (reference_offset b) (origin_offset b) q (period b) (label b) (unit b).
Definition with_period (b : base_var) (q : quantity) : base_var :=
  mkBase (reference_offset b) (origin_offset b) (quantity_name b) q (label b) (unit b).
Definition with_label (b : base_var) (l : string) : base_var :=
  mkBase (reference_offset b) (origin_offset b) (quantity_name b) (period b) l (unit b).
Definition with_unit (b : base_var) (u : unit_t) : base_var :=
  mkBase (reference_offset b) (origin_offset b) (quantity_name b) (period b) (label b) u.

(** [reference_offset.setter] *)
Definition set_reference_offset (b : base_var) (v : pyval) : result base_var :=
  match py_isinstance_str v with
  | None => Err TypeError
  | Some s =>
      q <- assign_and_check_unit_consistency s (Some (unit b)) ;;
      Ok (with_reference_offset b q)
  end.

(** [origin_offset.setter] *)
Definition set_origin_offset (b : base_var) (v : pyval) : result base_var :=
  match py_isinstance_str v with
  | None => Err TypeError
  | Some s =>
      q <- assign_and_check_unit_consistency s (Some (unit b)) ;;
      Ok (with_origin_offset b q)
  end.

Definition inf_sentinels : list string :=
  ["inf"%string; "Inf"%string; "infinity"%string; "Infinity"%string;
   "∞"%string].

Definition str_in (s : string) (l : list string) : bool :=
  existsb (String.eqb s) l.

(** [period.setter]: [value.strip().split()[0] in lst] selects [inf];
    otherwise the string is parsed, with no zero coercion. *)
Definition set_period (b : base_var) (v : pyval) : result base_var :=
  match py_isinstance_str v with
  | None => Err TypeError
  | Some s =>
      tok <- py_index0 (py_split (py_strip s)) ;;
      if str_in tok inf_sentinels then
        Ok (with_period b (mkQ PInf (unit b)))
      else
        q <- check_value_object (Some s) (unit b) ;;
        Ok (with_period b q)
  end.

(** [quantity.setter] *)
Definition set_quantity (b : base_var) (v : pyval) : result base_var :=
  Err NotImplementedError.

(** [label.setter] *)
Definition set_label (b : base_var) (v : pyval) : result base_var :=
  match py_isinstance_str v with
  | None => Err TypeError
  | Some s => Ok (with_label b s)
  end.

(** ** [DimensionWithLinearSpacing]

    The members inherited from [BaseIndependentVariable] are grouped in
    [lbase]; [reciprocal] is the owned [ReciprocalVariable]. *)

Record linear_dim := mkLinear {
  lbase : base_var;
  number_of_points : Z;
  increment : quantity;
  fft_output_order : bool;
  reciprocal : base_var;
  coordinates : list ext    (* [_coordinates] *)
}.

Definition with_lbase (d : linear_dim) (b : base_var) : linear_dim :=
  mkLinear b (number_of_points d) (increment d) (fft_output_order d)
    (reciprocal d) (coordinates d).
Definition with_reciprocal (d : linear_dim) (b : base_var) : linear_dim :=
  mkLinear (lbase d) (number_of_points d) (increment d) (fft_output_order d)
    b (coordinates d).
Definition with_increment (d : linear_dim) (q : quantity) : linear_dim :=
  mkLinear (lbase d) (number_of_points d) q (fft_output_order d)
    (reciprocal d) (coordinates d).
Definition with_fft_output_order (d : linear_dim) (f : bool) : linear_dim :=
  mkLinear (lbase d) (number_of_points d) (increment d) f
    (reciprocal d) (coordinates d).
Definition with_coordinates (d : linear_dim) (c : list ext) : linear_dim :=
  mkLinear (lbase d) (number_of_points d) (increment d) (fft_output_order d)
    (reciprocal d) c.

(** [np.arange(a, b)] on integers. *)
Definition arange (a b : Z) : list Z :=
  map (fun k => a + Z.of_nat k) (seq 0 (Z.to_nat (b - a))).

(** The index array of [_get_coordinates].  In the FFT branch
    [np.empty(N)] raises on a negative [N]; the two slice assignments
    [_index[:n] = p1] and [_index[n:] = p2] fill it exactly, since
    [n + N//2 = N] for [N >= 0] ([fft_index_length] below). *)
Definition fft_index (N : Z) (fft : bool) : result (list Z) :=
  if fft then
    if N <? 0 then Err ValueError
    else
      let n := (N - 1) / 2 + 1 in
      let p1 := arange 0 n in
      let p2 := arange (- (N / 2)) 0 in
      Ok (p1 ++ p2)
  else Ok (arange 0 N).

(** [_get_coordinates]: [_index * self._increment.to(self._unit)]. *)
Definition get_coordinates (d : linear_dim) : result linear_dim :=
  m <- qto (increment d) (unit (lbase d)) ;;
  idx <- fft_index (number_of_points d) (fft_output_order d) ;;
  Ok (with_coordinates d (map (fun j => ext_zmul j m) idx)).

(** [__init__] *)
Definition new_linear (N : Z) (incr : string) (ro oo : option string)
    (qn : option string) (per : option string) (lab : string) (fft : bool)
    (rro roo : option string) (rqn : option string) (rlab : string)
    (rper : option string) : result linear_dim :=
  i <- assign_and_check_unit_consistency incr None ;;
  let u := qunit i in
  b <- set_parameters ro oo qn per lab u ;;
  r <- set_parameters rro roo rqn rper rlab (unit_inv u) ;;
  get_coordinates (mkLinear b N i fft r []).

(** [_swap]: six tuple assignments, one per member. *)
Definition swap_reference_offset (d : linear_dim) : linear_dim :=
  let a := reference_offset (lbase d) in
  let c := reference_offset (reciprocal d) in
  with_reciprocal (with_lbase d (with_reference_offset (lbase d) c))
    (with_reference_offset (reciprocal d) a).
Definition swap_origin_offset (d : linear_dim) : linear_dim :=
  let a := origin_offset (lbase d) in
  let c := origin_offset (reciprocal d) in
  with_reciprocal (with_lbase d (with_origin_offset (lbase d) c))
    (with_origin_offset (reciprocal d) a).
Definition swap_period (d : linear_dim) : linear_dim :=
  let a := period (lbase d) in
  let c := period (reciprocal d) in
  with_reciprocal (with_lbase d (with_period (lbase d) c))
    (with_period (reciprocal d) a).
Definition swap_quantity (d : linear_dim) : linear_dim :=
  let a := quantity_name (lbase d) in
  let c := quantity_name (reciprocal d) in
  with_reciprocal (with_lbase d (with_quantity_name (lbase d) c))
    (with_quantity_name (reciprocal d) a).
Definition swap_label (d : linear_dim) : linear_dim :=
  let a := label (lbase d) in
  let c := label (reciprocal d) in
  with_reciprocal (with_lbase d (with_label (lbase d) c))
    (with_label (reciprocal d) a).
Definition swap_unit (d : linear_dim) : linear_dim :=
  let a := unit (lbase d) in
  let c := unit (reciprocal d) in
  with_reciprocal (with_lbase d (with_unit (lbase d) c))
    (with_unit (reciprocal d) a).

Definition swap (d : linear_dim) : linear_dim :=
  swap_unit (swap_label (swap_quantity (swap_period
    (swap_origin_offset (swap_reference_offset d))))).

(** [increment.setter]: only a negative value is refused. *)
Definition set_increment (d : linear_dim) (v : pyval) : result linear_dim :=
  match py_isinstance_str v with
  | None => Err TypeError
  | Some s =>
      q <- assign_and_check_unit_consistency s (Some (unit (lbase d))) ;;
      if ext_lt0 (qval q) then Err ValueError
      else get_coordinates (with_increment d q)
  end.

(** [FFT_output_order.setter] *)
Definition set_FFT_output_order (d : linear_dim) (v : pyval)
  : result linear_dim :=
  match v with
  | PBool f => get_coordinates (with_fft_output_order d f)
  | _ => Err TypeError
  end.

(** The inherited setters act on the base members. *)
Definition lift_base (f : base_var -> pyval -> result base_var)
    (d : linear_dim) (v : pyval) : result linear_dim :=
  b <- f (lbase d) v ;; Ok (with_lbase d b).

Definition linear_set_reference_offset := lift_base set_reference_offset.
Definition linear_set_period := lift_base set_period.

(** ** The [ControlledVariable] facade: selection of the variant *)

Inductive variant := LabeledV | ArbitraryV | LinearV.

(** The recognised keys the selection reads; the others are forwarded to
    the variant's constructor unchanged. *)
Record config := mkConfig {
  non_quantitative : bool;
  cfg_number_of_points : option Z;
  cfg_sampling_interval : option string;
  cfg_values : option (list string)
}.

Definition is_none {A} (o : option A) : bool :=
  match o with None => true | Some _ => false end.

Definition msg_values_required : string :=
  "'values' key is required for non-quantitative dimension.".
Definition msg_either_required : string :=
  "either 'number_of_points, sampling_interval' or 'values' key is required.".

(** [_check_non_quantitative] *)
Definition check_non_quantitative (d : config) : result bool :=
  if non_quantitative d then
    if is_none (cfg_values d) then Err (Exception msg_values_required)
    else Ok true
  else Ok false.

(** [_check_quantitative] *)
Definition check_quantitative (d : config) : result bool :=
  nq <- check_non_quantitative d ;;
  if negb nq then
    if is_none (cfg_number_of_points d) && is_none (cfg_sampling_interval d)
       && is_none (cfg_values d)
    then Err (Exception msg_either_required)
    else Ok true
  else Ok false.

(** [_check_quantitative_linear] *)
Definition check_quantitative_linear (d : config) : result bool :=
  q <- check_quantitative d ;;
  Ok (q && negb (is_none (cfg_number_of_points d))
        && negb (is_none (cfg_sampling_interval d))).

(** [_check_quantitative_arbitrary] *)
Definition check_quantitative_arbitrary (d : config) : result bool :=
  q <- check_quantitative d ;;
  Ok (q && negb (is_none (cfg_values d))).

Section Facade.
(** [build v d] runs the constructor of the variant [v] on the
    configuration [d]; it may raise. *)
Context {gcv_object : Type} (build : variant -> config -> result gcv_object).

(** [ControlledVariable.__init__]: three independent [if]s assign the
    local [_gcv_object]; the last one taken wins, and reading it when none
    was taken raises [UnboundLocalError]. *)
Definition controlled_variable_init (d : config) : result gcv_object :=
  nq <- check_non_quantitative d ;;
  g1 <- (if nq then o <- build LabeledV d ;; Ok (Some o) else Ok None) ;;
  ar <- check_quantitative_arbitrary d ;;
  g2 <- (if ar then o <- build ArbitraryV d ;; Ok (Some o) else Ok g1) ;;
  li <- check_quantitative_linear d ;;
  g3 <- (if li then o <- build LinearV d ;; Ok (Some o) else Ok g2) ;;
  match g3 with
  | Some o => Ok o
  | None => Err UnboundLocalError
  end.
End Facade.

(** ** The [ControlledVariable] facade: forwarded attributes *)

Definition linear_type : string := "Linearly sampled grid controlled variable".
Definition arbitrary_type : string :=
  "Arbitrarily sampled grid controlled variable".

(** [_quantitative_variable_types] *)
Definition quantitative_variable_types : list string :=
  [linear_type; arbitrary_type].

(** Python's [needle in haystack] on two strings: substring test. *)
Fixpoint py_str_contains (needle hay : string) : bool :=
  prefix needle hay ||
  match hay with
  | EmptyString => false
  | String _ hay' => py_str_contains needle hay'
  end.

(** Modelled from the spec: the variant object [gcv] (classes
    [_LinearlySampledDimension], [_ArbitrarilySampledDimension] and
    [_NonQuantitativeDimension] are not in the repository's files).  Its
    [variable_type] is one of the strings above for the two quantitative
    variants, and its attributes are plain stored members, read directly and
    written by [set_attribute] as in the sibling
    [_nonQuantitativeControlledVariable]. *)
Record gcv_state := mkGcv {
  variable_type : string;
  g_number_of_points : pyval;     (* the object stored by [set_attribute] *)
  g_values : list string;
  g_coordinates : list ext;
  g_origin_offset : quantity;
  g_period : quantity;
  g_unit : unit_t;
  g_reciprocal_coordinates : list ext;
  g_reciprocal_reference_offset : quantity;
  g_reciprocal_origin_offset : quantity
}.

Definition g_with_number_of_points (g : gcv_state) (n : pyval) : gcv_state :=
  mkGcv (variable_type g) n (g_values g) (g_coordinates g) (g_origin_offset g)
    (g_period g) (g_unit g) (g_reciprocal_coordinates g)
    (g_reciprocal_reference_offset g) (g_reciprocal_origin_offset g).

Definition g_with_period (g : gcv_state) (p : quantity) : gcv_state :=
  mkGcv (variable_type g) (g_number_of_points g) (g_values g) (g_coordinates g)
    (g_origin_offset g) p (g_unit g) (g_reciprocal_coordinates g)
    (g_reciprocal_reference_offset g) (g_reciprocal_origin_offset g).

Definition ext_add (x y : ext) : ext :=
  match x, y with
  | Fin a, Fin b => Fin (a + b)
  | NaN, _ | _, NaN => NaN
  | PInf, NInf | NInf, PInf => NaN
  | PInf, _ | _, PInf => PInf
  | NInf, _ | _, NInf => NInf
  end.

(** [absolute_coordinates] *)
Definition absolute_coordinates (g : gcv_state) : result (list ext) :=
  if str_in (variable_type g) quantitative_variable_types then
    o <- qto (g_origin_offset g) (g_unit g) ;;
    Ok (map (fun c => ext_add c o) (g_coordinates g))
  else Err AttributeError.

(** [reciprocal_coordinates]: the test is [in _quantitative_variable_types[0]],
    a substring test against the linear type string. *)
Definition reciprocal_coordinates (g : gcv_state) : result (list ext) :=
  if py_str_contains (variable_type g) linear_type then
    Ok (g_reciprocal_coordinates g)
  else Err AttributeError.

(** [reciprocal_reference_offset] (getter) *)
Definition reciprocal_reference_offset (g : gcv_state) : result quantity :=
  if str_in (variable_type g) quantitative_variable_types then
    Ok (g_reciprocal_reference_offset g)
  else Err AttributeError.

(** [reciprocal_origin_offset] (getter) *)
Definition reciprocal_origin_offset (g : gcv_state) : result quantity :=
  if str_in (variable_type g) quantitative_variable_types then
    Ok (g_reciprocal_origin_offset g)
  else Err AttributeError.

(** The truncation warning, with the two objects its message formats. *)
Inductive warning := TruncationWarning (old new : pyval).

Section NumberOfPoints.
(** [gcv._get_coordinates()] of the linear variant. *)
Context (gcv_get_coordinates : gcv_state -> result gcv_state).

(** [number_of_points.setter]: the new count and the warnings issued. *)
Definition cv_set_number_of_points (g : gcv_state) (v : pyval)
  : result (gcv_state * list warning) :=
  match py_int_value v with
  | None => Err TypeError
  | Some z =>
      if z <=? 0 then Err ValueError
      else if negb (String.eqb (variable_type g) linear_type) then
        match py_int_value (g_number_of_points g) with
        | None => Err TypeError
        | Some n =>
            if n <? z then Err ValueError
            else
              let w := if z <? n
                       then [TruncationWarning (g_number_of_points g) v] else [] in
              Ok (g_with_number_of_points g v, w)
        end
      else
        g' <- gcv_get_coordinates (g_with_number_of_points g v) ;;
        Ok (g', [])
  end.
End NumberOfPoints.

(** [period.setter] of the facade. *)
Definition cv_set_period (g : gcv_state) (v : pyval) : result gcv_state :=
  if str_in (variable_type g) quantitative_variable_types then
    match py_isinstance_str v with
    | None => Err TypeError
    | Some s =>
        tok <- py_index0 (py_split (py_strip s)) ;;
        if str_in tok inf_sentinels then
          Ok (g_with_period g (mkQ PInf (g_unit g)))
        else
          q <- check_value_object (Some s) (g_unit g) ;;
          Ok (g_with_period g q)
    end
  else Err AttributeError.

(** ** [_nonLinearQuantitativeControlledVariable] (src/studium)

    The class overrides [__setattr__]: assigning a name listed in
    [__slots__] with [self.name = value] raises [AttributeError]; members are
    written through [setAttribute] ([object.__setattr__]). *)



Record nl_var := mkNL {
  nl_coordinates : list ext;
  nl_coord_unit : unit_t;          (* the unit of [_coordinates] *)
  nl_reference_offset : quantity;
  nl_origin_offset : quantity;
  nl_made_dimensionless : bool;
  nl_unit : unit_t
}.


Definition nl_with_coordinates (s : nl_var) (c : list ext) (u : unit_t)
  : nl_var :=
  mkNL c u (nl_reference_offset s) (nl_origin_offset s)
    (nl_made_dimensionless s) (nl_unit s).

Definition ext_neg (x : ext) : ext :=
  match x with
  | Fin q => Fin (- q) | PInf => NInf | NInf => PInf | NaN => NaN
  end.

Definition ext_mul (x y : ext) : ext :=
  match x, y with
  | Fin a, Fin b => Fin (a * b)
  | NaN, _ | _, NaN => NaN
  | Fin a, e | e, Fin a =>
      if Qeq_bool a 0 then NaN
      else if Qle_bool 0 a then e else ext_neg e
  | PInf, PInf | NInf, NInf => PInf
  | _, _ => NInf
  end.

(** [1 / x] for [x != 0]. *)
Definition ext_inv (x : ext) : ext :=
  match x with
  | Fin q => if Qeq_bool q 0 then PInf else Fin (/ q)
  | PInf | NInf => Fin 0
  | NaN => NaN
  end.



(** The product of two units, when it is again a power of one dimension. *)
Definition unit_mul (u v : unit_t) : option unit_t :=
  if u_pow u =? 0 then Some (mkUnit (u_dim v) (u_pow v) (u_scale u * u_scale v))
  else if u_pow v =? 0 then Some (mkUnit (u_dim u) (u_pow u) (u_scale u * u_scale v))
  else if String.eqb (u_dim u) (u_dim v) then
    let p := u_pow u + u_pow v in
    Some (mkUnit (if p =? 0 then "" else u_dim u) p (u_scale u * u_scale v))
  else None.






(** Modelled from the spec: [_checkAndAssignBool] (module [_studium], not
    in the repository's files) accepts a boolean and raises [TypeError]
    otherwise. *)
Definition check_and_assign_bool (v : pyval) : result bool :=
  match v with PBool b => Ok b | _ => Err TypeError end.


(** ** Serialization: [_get_quantitative_dictionary] and
    [_get_python_dictionary] *)

(** A value of the dictionaries built for the JSON output. *)
#[warnings="-register-all"]
Inductive dval :=
| DStr (s : string)
| DInt (z : Z)
| DBool (b : bool)
| DList (l : list string)
| DDict (d : list (string * dval)).

(** A Python dictionary filled by insertions of distinct keys: its entries
    in insertion order. *)
Abbreviation dict := (list (string * dval)).

Fixpoint dict_lookup (k : string) (d : dict) : option dval :=
  match d with
  | [] => None
  | (k', v) :: d' => if String.eqb k k' then Some v else dict_lookup k d'
  end.

(** [self._quantity not in [None, "unknown", "dimensionless"]] *)
Definition quantity_is_set (q : option string) : bool :=
  match q with
  | None => false
  | Some s => negb (str_in s ["unknown"; "dimensionless"]%string)
  end.

(** [self._period.value not in [0.0, np.inf]] *)
Definition period_is_set (x : ext) : bool :=
  negb (ext_is_zero x || match x with PInf => true | _ => false end).

(** [label.strip() != ""] *)
Definition label_is_set (l : string) : bool :=
  negb (String.eqb (py_strip l) "").

(** The [reciprocal] entry: absent when the reciprocal dictionary is [{}]. *)
Definition reciprocal_entry (rd : dict) : dict :=
  match rd with
  | [] => []
  | _ => [("reciprocal"%string, DDict rd)]
  end.

Section Serialization.
(** [value_object_format] of [csdfpy.unit] (not in the repository's files):
    the string written for a quantity. *)
Context (value_object_format : quantity -> string).

(** [_get_quantitative_dictionary] *)
Definition get_quantitative_dictionary (b : base_var) : dict :=
  (if negb (ext_is_zero (qval (reference_offset b)))
   then [("reference_offset"%string,
          DStr (value_object_format (reference_offset b)))] else []) ++
  (if negb (ext_is_zero (qval (origin_offset b)))
   then [("origin_offset"%string,
          DStr (value_object_format (origin_offset b)))] else []) ++
  (match quantity_name b with
   | Some s => if quantity_is_set (Some s)
               then [("quantity"%string, DStr s)] else []
   | None => []
   end) ++
  (if period_is_set (qval (period b))
   then [("period"%string, DStr (value_object_format (period b)))] else []) ++
  (if label_is_set (label b) then [("label"%string, DStr (label b))] else []).

(** [DimensionWithLinearSpacing._get_python_dictionary] *)
Definition linear_get_python_dictionary (d : linear_dim) : dict :=
  [("type"%string, DStr "linear_spacing");
   ("number_of_points"%string, DInt (number_of_points d));
   ("increment"%string, DStr (value_object_format (increment d)))] ++
  get_quantitative_dictionary (lbase d) ++
  (if fft_output_order d then [("FFT_output_order"%string, DBool true)]
   else []) ++
  reciprocal_entry (get_quantitative_dictionary (reciprocal d)).
End Serialization.

(** ** [DimensionWithArbitrarySpacing] *)

Record arbitrary_dim := mkArbitrary {
  abase : base_var;
  a_number_of_points : Z;
  a_values : list string;
  a_coordinates : list ext;
  a_reciprocal : base_var
}.

(** A list comprehension whose expression may raise: the first exception
    ends it. *)
Fixpoint py_map {A B} (f : A -> result B) (l : list A) : result (list B) :=
  match l with
  | [] => Ok []
  | x :: l' => y <- f x ;; ys <- py_map f l' ;; Ok (y :: ys)
  end.

(** [_get_coordinates(values)]: every value is parsed, checked against the
    unit and expressed in it; the count, the values and the coordinates are
    written after the whole list is converted. *)
Definition arbitrary_get_coordinates (d : arbitrary_dim) (values : list string)
  : result arbitrary_dim :=
  let u := unit (abase d) in
  vs <- py_map (fun item =>
          q <- assign_and_check_unit_consistency item (Some u) ;; qto q u)
        values ;;
  Ok (mkArbitrary (abase d) (Z.of_nat (length vs)) values vs (a_reciprocal d)).

(** [__init__]: the unit is the one of [_values[0]]; the count, the values
    and the coordinates are first written by [_get_coordinates] ([0], [[]]
    and [[]] stand for them before). *)
Definition new_arbitrary (values : list string) (ro oo qn per : option string)
    (lab : string) (rro roo rqn : option string) (rlab : string)
    (rper : option string) : result arbitrary_dim :=
  v0 <- py_index0 values ;;
  i <- assign_and_check_unit_consistency v0 None ;;
  let u := qunit i in
  b <- set_parameters ro oo qn per lab u ;;
  r <- set_parameters rro roo rqn rper rlab (unit_inv u) ;;
  arbitrary_get_coordinates (mkArbitrary b 0 [] [] r) values.

(** [values.setter] *)
Definition arbitrary_set_values (d : arbitrary_dim) (array : list string)
  : result arbitrary_dim :=
  arbitrary_get_coordinates d array.

(** [DimensionWithArbitrarySpacing._get_python_dictionary] *)
Definition arbitrary_get_python_dictionary
    (value_object_format : quantity -> string) (d : arbitrary_dim) : dict :=
  [("type"%string, DStr "arbitrary_spacing");
   ("values"%string, DList (a_values d))] ++
  get_quantitative_dictionary value_object_format (abase d) ++
  reciprocal_entry
    (get_quantitative_dictionary value_object_format (a_reciprocal d)).

(** ** [DimensionWithLabels] *)

(** A string read back from a numpy string array ([np.asarray(l)] then
    [.tolist()]): numpy drops the trailing NUL characters. *)
Fixpoint rstrip_nul (s : string) : string :=
  match s with
  | EmptyString => EmptyString
  | String c s' =>
      match rstrip_nul s' with
      | EmptyString =>
          if Ascii.eqb c "000"%char then EmptyString else String c EmptyString
      | r => String c r
      end
  end.

(** [_label] and [_reverse] are assigned unchecked by [__init__], so they
    hold any Python value. *)
Record labeled_dim := mkLabeled {
  lb_number_of_points : Z;
  lb_coordinates : list string;   (* [np.asarray(_values)], read back *)
  lb_values : list string;
  lb_label : pyval;
  lb_reverse : pyval
}.

(** [_get_coordinates(_values)] *)
Definition labeled_get_coordinates (d : labeled_dim) (values : list string)
  : labeled_dim :=
  mkLabeled (Z.of_nat (length values)) (map rstrip_nul values) values
    (lb_label d) (lb_reverse d).

(** [__init__] *)
Definition new_labeled (values : list string) (lab rev : pyval) : labeled_dim :=
  let d := labeled_get_coordinates (mkLabeled 0 [] [] PNone PNone) values in
  mkLabeled (lb_number_of_points d) (lb_coordinates d) (lb_values d) lab rev.

(** [values.setter] *)
Definition labeled_set_values (d : labeled_dim) (values : list string)
  : labeled_dim :=
  labeled_get_coordinates d values.

(** [label.setter] *)
Definition labeled_set_label (d : labeled_dim) (v : pyval) : result labeled_dim :=
  match v with
  | PStr _ => Ok (mkLabeled (lb_number_of_points d) (lb_coordinates d)
                    (lb_values d) v (lb_reverse d))
  | _ => Err TypeError
  end.

(** [reverse.setter]: the [isinstance] check, then [_check_and_assign_bool]
    of [csdfpy._utils], modelled as [check_and_assign_bool]. *)
Definition labeled_set_reverse (d : labeled_dim) (v : pyval)
  : result labeled_dim :=
  match v with
  | PBool _ =>
      b <- check_and_assign_bool v ;;
      Ok (mkLabeled (lb_number_of_points d) (lb_coordinates d) (lb_values d)
            (lb_label d) (PBool b))
  | _ => Err TypeError
  end.

(** [_get_python_dictionary] *)
Definition labeled_get_python_dictionary (d : labeled_dim) : dict :=
  [("type"%string, DStr "labeled");
   ("values"%string, DList (lb_coordinates d))].

(** ** [_nonQuantitativeControlledVariable] ([nonQuantitative.py]) *)

Record nq_var := mkNQ {
  nq_sampling_type : pyval;
  nq_non_quantitative : pyval;
  nq_number_of_points : Z;
  nq_coordinates : list string;   (* [np.asarray(_coordinates)], read back *)
  nq_reverse : bool;
  nq_label : pyval
}.

(** [__init__]; [_checkAndAssignBool] of [_csdmChecks] (not in the
    repository's files) is modelled as [check_and_assign_bool]. *)
Definition new_nq (coords : list string) (st nq : pyval) (rev lab : pyval)
  : result nq_var :=
  r <- check_and_assign_bool rev ;;
  Ok (mkNQ st nq (Z.of_nat (length coords)) (map rstrip_nul coords) r lab).

Definition nq_slots : list string :=
  ["_sampling_type"; "_non_quantitative"; "_number_of_points";
   "_coordinates"; "_reverse"; "_label"]%string.

(** [label.setter]: no check. *)
Definition nq_set_label (s : nq_var) (v : pyval) : nq_var :=
  mkNQ (nq_sampling_type s) (nq_non_quantitative s) (nq_number_of_points s)
    (nq_coordinates s) (nq_reverse s) v.

(** [reverse.setter] *)
Definition nq_set_reverse (s : nq_var) (v : pyval) : result nq_var :=
  b <- check_and_assign_bool v ;;
  Ok (mkNQ (nq_sampling_type s) (nq_non_quantitative s) (nq_number_of_points s)
        (nq_coordinates s) b (nq_label s)).

(** [self.name = value], through the class's [__setattr__]: a slot name
    raises; a name of the class dictionary goes to [object.__setattr__],
    which runs the setter of the properties [label] and [reverse] and raises
    [AttributeError] for every other entry (the read-only properties, the
    methods and the plain class attributes, the instances having no
    [__dict__]); any other name raises. *)
Definition nq_setattr (s : nq_var) (name : string) (v : pyval)
  : result nq_var :=
  if str_in name nq_slots then Err AttributeError
  else if String.eqb name "label" then Ok (nq_set_label s v)
  else if String.eqb name "reverse" then nq_set_reverse s v
  else Err AttributeError.

(** [_get_python_dictonary]: [self._label.strip()] raises [AttributeError]
    on a label that is not a string. *)
Definition nq_get_python_dictonary (s : nq_var) : result dict :=
  let d := [("coordinates"%string, DList (nq_coordinates s));
            ("non_quantitative"%string, DBool true)] ++
           (if nq_reverse s then [("reverse"%string, DBool true)] else []) in
  match nq_label s with
  | PStr l => Ok (d ++ if label_is_set l then [("label"%string, DStr l)] else [])
  | _ => Err AttributeError
  end.

(** ** [_nonLinearQuantitativeControlledVariable]: the coordinates *)

Definition ext_sub (x y : ext) : ext := ext_add x (ext_neg y).

(** [_getCoordinates]: [coordinates - reference_offset] (the offset in the
    coordinates' unit), divided in place by [origin_offset + reference_offset]
    when made dimensionless (numpy's division, [x/0] being [inf] or [nan]),
    is written to [_coordinates]; then the absolute coordinates
    [_value + origin_offset] are computed.  Returns them with the state.  A
    quotient unit that is not a power of one dimension cannot arise: the
    subtraction has made the two units consistent. *)
Definition nl_get_coordinates (s : nl_var) : result (list ext) * nl_var :=
  let u := nl_unit s in
  let cu := nl_coord_unit s in
  match (r <- qto (nl_reference_offset s) u ;;
         r' <- qto (mkQ r u) cu ;;
         o <- qto (nl_origin_offset s) u ;;
         Ok (r, r', o)) with
  | Err e => (Err e, s)
  | Ok (r, r', o) =>
      let v := map (fun c => ext_sub c r') (nl_coordinates s) in
      let '(v, vu) :=
        if nl_made_dimensionless s
        then (map (fun c => ext_mul c (ext_inv (ext_add o r))) v,
              unit_mul cu (unit_inv u))
        else (v, Some cu) in
      match vu with
      | None => (Err DimensionalityError, s)
      | Some vu =>
          let s' := nl_with_coordinates s v vu in
          match qto (mkQ o u) vu with
          | Ok o' => (Ok (map (fun c => ext_add c o') v), s')
          | Err e => (Err e, s')
          end
      end
  end.

(** [reference_offset.setter]: no type check; [_assignAndCheckUnitConsistency]
    of [_studium] (not in the repository's files) is modelled as
    [assign_and_check_unit_consistency]; the offset is stored, then
    [_getCoordinates] runs. *)
Definition nl_set_reference_offset (s : nl_var) (v : string)
  : result (list ext) * nl_var :=
  match assign_and_check_unit_consistency v (Some (nl_unit s)) with
  | Err e => (Err e, s)
  | Ok q => nl_get_coordinates
              (mkNL (nl_coordinates s) (nl_coord_unit s) q (nl_origin_offset s)
                 (nl_made_dimensionless s) (nl_unit s))
  end.

(** [origin_offset.setter] *)
Definition nl_set_origin_offset (s : nl_var) (v : string)
  : result (list ext) * nl_var :=
  match assign_and_check_unit_consistency v (Some (nl_unit s)) with
  | Err e => (Err e, s)
  | Ok q => nl_get_coordinates
              (mkNL (nl_coordinates s) (nl_coord_unit s) (nl_reference_offset s) q
                 (nl_made_dimensionless s) (nl_unit s))
  end.


(** ** Example configurations *)

(** The index sequence of the FFT output order as the spec's sentence
    writes it: [[0, 1, ..., n-1, -(N-⌊N/2⌋), ..., -1]]. *)
Definition spec_fft_index (N : Z) : list Z :=
  arange 0 ((N - 1) / 2 + 1) ++ arange (- (N - N / 2)) 0.

(** A linear dimension of [N] points spaced by [1 G], all else default. *)
Definition linear_G (N : Z) : result linear_dim :=
  new_linear N "1 G" None None None None "" false None None None "" None.

(** The default base members in unit [u]. *)
Definition base_of (u : unit_t) : base_var :=
  mkBase (mkQ (Fin 0) u) (mkQ (Fin 0) u) None (mkQ PInf u) "" u.

(** A linear dimension of [N] points spaced by [1 G], before its
    coordinates are computed. *)
Definition example_linear (N : Z) : linear_dim :=
  mkLinear (base_of gauss) N (mkQ (Fin 1) gauss) false
    (base_of (unit_inv gauss)) [].

(** A variant object of type [vt] over the stored values [vals], in [G]. *)
Definition example_gcv (vt : string) (vals : list string) : gcv_state :=
  mkGcv vt (PInt (Z.of_nat (length vals))) vals [] (mkQ (Fin 0) gauss)
    (mkQ PInf gauss) gauss [] (mkQ (Fin 0) (unit_inv gauss))
    (mkQ (Fin 0) (unit_inv gauss)).

Definition five_values : list string :=
  ["0 G"; "1 G"; "2 G"; "3 G"; "4 G"]%string.

(** A non-linear variable in [G] with both offsets zero. *)
Definition example_nl : nl_var :=
  mkNL [Fin 1; Fin 2] gauss (mkQ (Fin 0) gauss) (mkQ (Fin 0) gauss) false gauss.

(** The facade's variant constructors, all succeeding, tagged by variant. *)
Definition build_variant (v : variant) (d : config) : result variant := Ok v.

(** ** Lemmas on the index arrays *)

Lemma seq_nth_error (s n k : nat) :
  (k < n)%nat -> nth_error (seq s n) k = Some (s + k)%nat.
Proof.
  revert s k; induction n as [|n IH]; intros s k Hk; [lia|].
  destruct k as [|k]; simpl.
  - f_equal; lia.
  - rewrite IH by lia. f_equal; lia.
Qed.

Lemma arange_length (a b : Z) : length (arange a b) = Z.to_nat (b - a).
Proof. unfold arange. rewrite length_map, length_seq. reflexivity. Qed.

Lemma arange_nth_error (a b : Z) (k : nat) :
  (k < Z.to_nat (b - a))%nat -> nth_error (arange a b) k = Some (a + Z.of_nat k).
Proof.
  intros Hk. unfold arange. rewrite nth_error_map, seq_nth_error by exact Hk.
  reflexivity.
Qed.

Lemma fft_split_sum (N : Z) :
  0 <= N -> (N - 1) / 2 + 1 + N / 2 = N.
Proof.
  intros HN.
  pose proof (Z.div_mod (N - 1) 2 ltac:(lia)).
  pose proof (Z.mod_pos_bound (N - 1) 2 ltac:(lia)).
  pose proof (Z.div_mod N 2 ltac:(lia)).
  pose proof (Z.mod_pos_bound N 2 ltac:(lia)).
  lia.
Qed.

(** The FFT index array has [N] entries, the [j]-th being [j] below
    [n = (N-1)//2 + 1] and [j - N] from there on. *)
Lemma fft_index_nth (N : Z) :
  0 <= N ->
  exists idx, fft_index N true = Ok idx /\
    length idx = Z.to_nat N /\
    forall j, 0 <= j < N ->
      nth_error idx (Z.to_nat j) =
        Some (if j <? (N - 1) / 2 + 1 then j else j - N).
Proof.
  intros HN. pose proof (fft_split_sum N HN) as Hs.
  assert (Hn : 0 <= (N - 1) / 2 + 1).
  { pose proof (Z.div_mod (N - 1) 2 ltac:(lia)).
    pose proof (Z.mod_pos_bound (N - 1) 2 ltac:(lia)). lia. }
  assert (Hh : 0 <= N / 2) by (apply Z.div_pos; lia).
  unfold fft_index. replace (N <? 0) with false by (symmetry; apply Z.ltb_ge; lia).
  eexists; split; [reflexivity|]. split.
  - rewrite length_app, !arange_length. lia.
  - intros j Hj. destruct (Z.ltb_spec j ((N - 1) / 2 + 1)) as [Hlt|Hge].
    + rewrite nth_error_app1 by (rewrite arange_length; lia).
      rewrite arange_nth_error by lia. f_equal; lia.
    + rewrite nth_error_app2 by (rewrite arange_length; lia).
      rewrite arange_length, arange_nth_error by lia. f_equal; lia.
Qed.

(** ** C1: the FFT output order *)

(** C1 (the spec's formula, refuted): for [N = 5], [1 G] per point, the
    coordinates after [FFT_output_order = True] are not the spec's index
    sequence [[0, 1, 2, -(5-2), ..., -1]] times the increment: the code
    starts the negative part at [-(N//2) = -2], so it has 5 entries where the
    spec's sequence has 6. *)
Lemma C1_formula_counterexample :
  exists d d', linear_G 5 = Ok d /\
    set_FFT_output_order d (PBool true) = Ok d' /\
    coordinates d' <> map (fun j => ext_zmul j (Fin 1)) (spec_fft_index 5).
Proof.
  do 2 eexists. split; [vm_compute; reflexivity|].
  split; [vm_compute; reflexivity|].
  vm_compute. discriminate.
Qed.

(** C1 (as amended): for a linear dimension with [N >= 1] points and
    increment [m] (in the dimension's unit), setting [fft_output_order] to
    true recomputes [N] coordinates, the [j]-th being [j*m] for
    [j < n = (N-1)//2 + 1] and [(j-N)*m] otherwise, that is the indices
    [[0, ..., n-1, -(N//2), ..., -1]]; for [N = 10] they are
    [[0,1,2,3,4,-5,-4,-3,-2,-1]] and for [N = 5] they are [[0,1,2,-2,-1]]
    in units of [m]. *)
Theorem C1_fft_output_order (d : linear_dim) (m : ext) :
  1 <= number_of_points d ->
  qto (increment d) (unit (lbase d)) = Ok m ->
  exists d', set_FFT_output_order d (PBool true) = Ok d' /\
    fft_output_order d' = true /\
    length (coordinates d') = Z.to_nat (number_of_points d) /\
    (forall j, 0 <= j < number_of_points d ->
       nth_error (coordinates d') (Z.to_nat j) =
       Some (ext_zmul (if j <? (number_of_points d - 1) / 2 + 1 then j
                       else j - number_of_points d) m)) /\
    (number_of_points d = 10 -> coordinates d' =
       map (fun j => ext_zmul j m) [0; 1; 2; 3; 4; -5; -4; -3; -2; -1]) /\
    (number_of_points d = 5 -> coordinates d' =
       map (fun j => ext_zmul j m) [0; 1; 2; -2; -1]).
Proof.
  intros HN Hm.
  destruct (fft_index_nth (number_of_points d) ltac:(lia))
    as [idx [Hi [Hl Hn]]].
  unfold set_FFT_output_order, get_coordinates. cbn [increment lbase
    with_fft_output_order number_of_points fft_output_order].
  rewrite Hm. cbn [bind]. rewrite Hi. cbn [bind].
  eexists; split; [reflexivity|]. cbn [coordinates fft_output_order with_coordinates].
  split; [reflexivity|]. split; [|split; [|split]].
  - rewrite length_map. exact Hl.
  - intros j Hj. rewrite nth_error_map, Hn by exact Hj. reflexivity.
  - intros H10. rewrite H10 in Hi. vm_compute in Hi. injection Hi as <-.
    reflexivity.
  - intros H5. rewrite H5 in Hi. vm_compute in Hi. injection Hi as <-.
    reflexivity.
Qed.

(** ** C3: [_swap] *)

(** C3: [_swap] exchanges the whole base part (reference offset, origin
    offset, period, quantity, label and unit, the six members of
    [base_var]) of a linear dimension with its reciprocal, changes none of
    the linear dimension's other members, and applying it twice gives back
    the dimension. *)
Theorem C3_swap_exchanges_and_involutive (d : linear_dim) :
  lbase (swap d) = reciprocal d /\
  reciprocal (swap d) = lbase d /\
  number_of_points (swap d) = number_of_points d /\
  increment (swap d) = increment d /\
  fft_output_order (swap d) = fft_output_order d /\
  coordinates (swap d) = coordinates d /\
  swap (swap d) = d.
Proof.
  destruct d as [[] n i f [] c].
  repeat split; reflexivity.
Qed.

Lemma C1_fft_output_order_witness :
  exists d', set_FFT_output_order (example_linear 10) (PBool true) = Ok d' /\
    coordinates d' =
      map (fun j => ext_zmul j (Fin 1)) [0; 1; 2; 3; 4; -5; -4; -3; -2; -1].
Proof.
  destruct (C1_fft_output_order (example_linear 10) (Fin 1)
              ltac:(vm_compute; discriminate) eq_refl)
    as [d' [Hs [_ [_ [_ [H10 _]]]]]].
  exists d'. split; [exact Hs | apply H10; reflexivity].
Defined.

(** ** C2: the reference offset and the coordinates *)

(** C2 (the code at a failing input): for a linear dimension of 3 points
    spaced by [1 G], assigning [reference_offset = "1 G"] stores the offset
    but leaves the coordinates at [[0, 1, 2] G]: [_get_coordinates] computes
    [_index * increment] without subtracting the reference offset, and the
    setter does not recompute them, where the class docstring gives
    [X_ref = [m j] - c 1 = [-1, 0, 1] G]. *)
Theorem C2_reference_offset_not_subtracted :
  exists d d', linear_G 3 = Ok d /\
    linear_set_reference_offset d (PStr "1 G") = Ok d' /\
    qval (reference_offset (lbase d')) = Fin 1 /\
    coordinates d' = coordinates d /\
    coordinates d' = [Fin 0; Fin 1; Fin 2].
Proof.
  do 2 eexists. split; [vm_compute; reflexivity|].
  split; [vm_compute; reflexivity|].
  vm_compute. repeat split; reflexivity.
Qed.

(** ** C4: the facade's selection *)

(** C4 (the code at a failing input): a configuration with
    [number_of_points] but neither [sampling_interval] nor [values] (or
    [sampling_interval] alone) passes [_check_quantitative], which raises
    only when all three keys are missing, selects no variant and ends in
    [UnboundLocalError] on [_gcv_object] instead of the configuration error;
    with all three keys missing the configuration error is raised. *)
Theorem C4_partial_linear_keys_unbound :
  controlled_variable_init build_variant (mkConfig false (Some 10) None None)
    = Err UnboundLocalError /\
  controlled_variable_init build_variant
    (mkConfig false None (Some "1 G"%string) None) = Err UnboundLocalError /\
  controlled_variable_init build_variant (mkConfig false None None None)
    = Err (Exception msg_either_required).
Proof. repeat split; reflexivity. Qed.

(** ** C5: reducing the count of an arbitrary dimension *)

(** C5 (the code at a failing input): on an arbitrarily sampled dimension
    with 5 stored values, [number_of_points = 3] warns that the coordinates
    are truncated to 3 and stores the count 3, but the stored values (and
    coordinates) keep all 5 entries; [number_of_points = 6] raises
    [ValueError]. *)
Theorem C5_count_reduction_keeps_values :
  cv_set_number_of_points (fun g => Ok g)
    (example_gcv arbitrary_type five_values) (PInt 3)
  = Ok (g_with_number_of_points (example_gcv arbitrary_type five_values) (PInt 3),
        [TruncationWarning (PInt 5) (PInt 3)]) /\
  g_values (g_with_number_of_points (example_gcv arbitrary_type five_values)
              (PInt 3))
    = five_values /\
  length five_values = 5%nat /\
  cv_set_number_of_points (fun g => Ok g)
    (example_gcv arbitrary_type five_values) (PInt 6) = Err ValueError.
Proof. repeat split; reflexivity. Qed.

(** ** C6: a zero increment *)

(** C6 (the code at a failing input): [increment = "0 G"] on a linear
    dimension of 3 points is accepted (the setter refuses only a negative
    value): the increment becomes [0 G] and every coordinate [0]; a negative
    increment [-1 G] raises [ValueError]. *)
Theorem C6_zero_increment_accepted :
  exists d d', linear_G 3 = Ok d /\
    set_increment d (PStr "0 G") = Ok d' /\
    qval (increment d') = Fin 0 /\
    coordinates d' = [Fin 0; Fin 0; Fin 0] /\
    set_increment d (PStr "-1 G") = Err ValueError.
Proof.
  do 2 eexists. split; [vm_compute; reflexivity|].
  split; [vm_compute; reflexivity|].
  vm_compute. repeat split; reflexivity.
Qed.

(** ** C7: a zero period *)

(** C7 (the code at a failing input): a zero period given to the
    constructor is coerced to [inf], but assigning [period = "0 G"]
    afterwards stores a zero period, both on the linear dimension and
    through the facade. *)
Theorem C7_zero_period_stored :
  (exists d, new_linear 3 "1 G" None None None (Some "0 G"%string) "" false
               None None None "" None = Ok d /\
             qval (period (lbase d)) = PInf) /\
  (exists d d', linear_G 3 = Ok d /\
    linear_set_period d (PStr "0 G") = Ok d' /\
    qval (period (lbase d')) = Fin 0) /\
  (exists g', cv_set_period (example_gcv linear_type []) (PStr "0 G") = Ok g' /\
    qval (g_period g') = Fin 0).
Proof.
  split; [|split].
  - eexists. split; [vm_compute; reflexivity | reflexivity].
  - do 2 eexists. split; [vm_compute; reflexivity|].
    split; [vm_compute; reflexivity | reflexivity].
  - eexists. split; [vm_compute; reflexivity | reflexivity].
Qed.

(** ** C8: the zero-division condition of [made_dimensionless] *)




(** ** C9: [reciprocal_coordinates] on the two quantitative variants *)

(** C9: whatever its other members, an arbitrarily sampled variant raises
    [AttributeError] on [reciprocal_coordinates] while a linearly sampled
    one returns its reciprocal coordinates; [absolute_coordinates],
    [reciprocal_reference_offset] and [reciprocal_origin_offset] pass their
    membership test for both; and any variant whose type string is not a
    substring of the linear one raises on [reciprocal_coordinates]. *)
Theorem C9_reciprocal_coordinates_linear_only
    (n : pyval) (vals : list string) (cs : list ext) (oo per : quantity)
    (u : unit_t) (rc : list ext) (rro roo : quantity) :
  let ga := mkGcv arbitrary_type n vals cs oo per u rc rro roo in
  let gl := mkGcv linear_type n vals cs oo per u rc rro roo in
  reciprocal_coordinates ga = Err AttributeError /\
  reciprocal_coordinates gl = Ok rc /\
  absolute_coordinates ga <> Err AttributeError /\
  absolute_coordinates gl <> Err AttributeError /\
  reciprocal_reference_offset ga = Ok rro /\
  reciprocal_reference_offset gl = Ok rro /\
  reciprocal_origin_offset ga = Ok roo /\
  reciprocal_origin_offset gl = Ok roo /\
  (forall g, py_str_contains (variable_type g) linear_type = false ->
     reciprocal_coordinates g = Err AttributeError).
Proof.
  intros ga gl.
  assert (Hq : forall g, str_in (variable_type g) quantitative_variable_types = true ->
                 absolute_coordinates g <> Err AttributeError).
  { intros g Hg. unfold absolute_coordinates. rewrite Hg. unfold qto.
    destruct (unit_eqb _ _); [discriminate|].
    destruct (unit_consistent _ _); discriminate. }
  repeat split.
  - apply Hq. reflexivity.
  - apply Hq. reflexivity.
  - intros g Hg. unfold reciprocal_coordinates. rewrite Hg. reflexivity.
Qed.

(** ** C10: a blank period string *)

Lemma py_chars_cons (c : ascii) (s : string) :
  py_chars (String c s) =
  match py_chars s with
  | (String d _ as x) :: xs =>
      if is_cont d then String c x :: xs
      else String c EmptyString :: x :: xs
  | l => String c EmptyString :: l
  end.
Proof. reflexivity. Qed.

Lemma py_chars_head (b : ascii) (r : string) :
  exists z zs, py_chars (String b r) = String b z :: zs.
Proof.
  rewrite py_chars_cons.
  destruct (py_chars r) as [|[|d x] xs]; [eauto|eauto|].
  destruct (is_cont d); eauto.
Qed.

Lemma py_chars_app (x y : string) :
  (y = EmptyString \/ exists b r, y = String b r /\ is_cont b = false) ->
  py_chars (x ++ y)%string = py_chars x ++ py_chars y.
Proof.
  intros Hy. induction x as [|c x IH]; [reflexivity|].
  cbn [String.append]. rewrite !py_chars_cons, IH.
  destruct (py_chars x) as [|[|d z] zs]; cbn [app].
  - destruct Hy as [->|[b [r [-> Hb]]]]; [reflexivity|].
    destruct (py_chars_head b r) as [z [zs H]]. rewrite H, Hb. reflexivity.
  - reflexivity.
  - destruct (is_cont d); reflexivity.
Qed.

Lemma py_chars_chunk (b : ascii) (r : string) :
  forallb is_cont (list_ascii_of_string r) = true ->
  py_chars (String b r) = [String b r].
Proof.
  revert b; induction r as [|d r IH]; intros b H; [reflexivity|].
  cbn [list_ascii_of_string forallb] in H. apply andb_true_iff in H as [Hd Hr].
  rewrite py_chars_cons, (IH d Hr), Hd. reflexivity.
Qed.

Lemma py_chars_join (l : list string) :
  Forall (fun x => chunk_ok x = true) l ->
  Forall (fun x => lead_ok x = true) (tl l) ->
  py_chars (py_join l) = l.
Proof.
  induction l as [|x l IH]; intros Hc Hl; [reflexivity|].
  inversion Hc as [|? ? Hx Hc']; subst. cbn [tl] in Hl.
  destruct x as [|b r]; [discriminate|].
  change (py_join (String b r :: l)) with (String b r ++ py_join l)%string.
  rewrite py_chars_app.
  - rewrite (py_chars_chunk b r Hx), IH; [reflexivity|exact Hc'|].
    destruct l; [constructor|]. inversion Hl; assumption.
  - destruct l as [|y l']; [left; reflexivity|right].
    inversion Hl as [|? ? Hy _]; subst.
    destruct y as [|b' r']; [discriminate|].
    exists b', (r' ++ py_join l')%string. split; [reflexivity|].
    cbn [lead_ok] in Hy. destruct (is_cont b'); [discriminate|reflexivity].
Qed.

Lemma py_chars_wf (s : string) :
  Forall (fun x => chunk_ok x = true) (py_chars s) /\
  Forall (fun x => lead_ok x = true) (tl (py_chars s)).
Proof.
  induction s as [|c s [Hc Hl]]; [split; constructor|].
  rewrite py_chars_cons.
  destruct (py_chars s) as [|[|d z] zs].
  - split; repeat constructor.
  - inversion Hc as [|? ? H _]; discriminate.
  - inversion Hc as [|? ? Hx Hzs]; subst. cbn [tl] in Hl.
    destruct (is_cont d) eqn:D.
    + split; [constructor; [|exact Hzs] | exact Hl].
      cbn in Hx |- *. rewrite D. exact Hx.
    + split; [repeat constructor; assumption|].
      constructor; [|exact Hl]. cbn. rewrite D. reflexivity.
Qed.

Lemma drop_space_suffix (l : list string) : exists p, l = p ++ drop_space l.
Proof.
  induction l as [|x l [p IH]]; [exists []; reflexivity|].
  cbn [drop_space]. destruct (is_space_char x).
  - exists (x :: p). cbn. rewrite <- IH. reflexivity.
  - exists []. reflexivity.
Qed.

Lemma drop_space_rev_prefix (m : list string) :
  exists q, m = rev (drop_space (rev m)) ++ q.
Proof.
  destruct (drop_space_suffix (rev m)) as [p H]. exists (rev p).
  rewrite <- rev_app_distr, <- H, rev_involutive. reflexivity.
Qed.

Lemma wf_suffix (C L : string -> Prop) (l p m : list string) :
  l = p ++ m -> Forall C l -> Forall L (tl l) ->
  Forall C m /\ Forall L (tl m).
Proof.
  intros -> Hc Hl. apply Forall_app in Hc as [_ Hc]. split; [exact Hc|].
  destruct p as [|a p]; [exact Hl|]. cbn [tl app] in Hl.
  apply Forall_app in Hl as [_ Hl].
  destruct m; [constructor | exact (Forall_inv_tail Hl)].
Qed.

Lemma wf_prefix (C L : string -> Prop) (l m q : list string) :
  l = m ++ q -> Forall C l -> Forall L (tl l) ->
  Forall C m /\ Forall L (tl m).
Proof.
  intros -> Hc Hl. apply Forall_app in Hc as [Hc _]. split; [exact Hc|].
  destruct m as [|a m]; [constructor|]. cbn [tl app] in Hl |- *.
  apply Forall_app in Hl as [Hl _]. exact Hl.
Qed.

Lemma py_strip_chars (s : string) :
  py_chars (py_strip s) = rev (drop_space (rev (drop_space (py_chars s)))) /\
  Forall (fun x => chunk_ok x = true)
    (rev (drop_space (rev (drop_space (py_chars s))))).
Proof.
  destruct (py_chars_wf s) as [Hc Hl].
  destruct (drop_space_suffix (py_chars s)) as [p Hp].
  destruct (wf_suffix _ _ _ _ _ Hp Hc Hl) as [Hc1 Hl1].
  destruct (drop_space_rev_prefix (drop_space (py_chars s))) as [q Hq].
  destruct (wf_prefix _ _ _ _ _ Hq Hc1 Hl1) as [Hc2 Hl2].
  split; [|exact Hc2]. unfold py_strip. apply py_chars_join; assumption.
Qed.

Lemma forallb_drop_space (l : list string) :
  forallb is_space_char (drop_space l) = forallb is_space_char l.
Proof.
  induction l as [|x l IH]; [reflexivity|]. cbn [drop_space].
  destruct (is_space_char x) eqn:E; [|reflexivity].
  cbn [forallb]. rewrite E, IH. reflexivity.
Qed.

Lemma forallb_rev {A} (f : A -> bool) (l : list A) :
  forallb f (rev l) = forallb f l.
Proof.
  induction l as [|x l IH]; [reflexivity|]. cbn [rev forallb].
  rewrite forallb_app, IH. cbn [forallb]. rewrite andb_true_r, andb_comm.
  reflexivity.
Qed.

Lemma forallb_strip (l : list string) :
  forallb is_space_char (rev (drop_space (rev (drop_space l)))) =
  forallb is_space_char l.
Proof. rewrite forallb_rev, forallb_drop_space, forallb_rev, forallb_drop_space.
  reflexivity. Qed.

Lemma split_go_nil (l : list string) (cur : string) :
  Forall (fun x => chunk_ok x = true) l ->
  split_go l cur = [] <-> cur = EmptyString /\ forallb is_space_char l = true.
Proof.
  revert cur; induction l as [|x l IH]; intros cur Hl; cbn [split_go forallb].
  - destruct cur; split; intros H; try discriminate; try tauto.
    destruct H as [H _]; discriminate.
  - inversion Hl as [|? ? Hx Hl']; subst.
    destruct (is_space_char x) eqn:E; cbn [andb].
    + destruct cur as [|a cur].
      * rewrite (IH _ Hl'). tauto.
      * split; [discriminate | intros [H _]; discriminate].
    + rewrite (IH _ Hl'). split; [intros [H _] | intros [_ H]; discriminate].
      destruct x; [discriminate|]. destruct cur; discriminate.
Qed.

Lemma py_split_strip_nil (s : string) :
  py_split (py_strip s) = [] <-> all_space s = true.
Proof.
  destruct (py_strip_chars s) as [E Hc].
  unfold py_split. rewrite E, (split_go_nil _ _ Hc), forallb_strip.
  unfold all_space. tauto.
Qed.

Lemma assign_no_index_error (s : string) (e : option unit_t) :
  assign_and_check_unit_consistency s e <> Err IndexError.
Proof.
  unfold assign_and_check_unit_consistency.
  destruct (py_split s) as [|a [|b [|c l]]]; cbn [bind]; try discriminate;
    [destruct (parse_number a) | destruct (parse_number a), (unit_of_symbol b)];
    cbn [bind]; try discriminate;
    destruct e as [v|]; try discriminate;
    destruct (unit_consistent _ v); discriminate.
Qed.

Lemma period_branch_no_index_error {S} (tok : string) (s : string)
    (u : unit_t) (k : quantity -> result S) (inf : result S) :
  inf <> Err IndexError -> (forall q, k q <> Err IndexError) ->
  (if str_in tok inf_sentinels then inf
   else q <- check_value_object (Some s) u ;; k q) <> Err IndexError.
Proof.
  intros Hi Hk. destruct (str_in tok inf_sentinels); [exact Hi|].
  cbn [check_value_object]. destruct (assign_and_check_unit_consistency s (Some u))
    as [q|e] eqn:A; cbn [bind]; [apply Hk|].
  intros H. injection H as ->. exact (assign_no_index_error s (Some u) A).
Qed.

(** C10: assigning a string to [period] raises [IndexError] exactly when the
    string is empty or made only of whitespace (any code point Python's
    [str.split()] splits on, such as the no-break space U+00A0), on a
    linear dimension and through the facade on a quantitative variant. *)
Theorem C10_blank_period_index_error (d : linear_dim) (g : gcv_state)
    (s : string) :
  str_in (variable_type g) quantitative_variable_types = true ->
  (linear_set_period d (PStr s) = Err IndexError <-> all_space s = true) /\
  (cv_set_period g (PStr s) = Err IndexError <-> all_space s = true).
Proof.
  intros Hg. pose proof (py_split_strip_nil s) as Hs.
  unfold linear_set_period, lift_base, set_period, cv_set_period.
  rewrite Hg. cbn [py_isinstance_str].
  destruct (py_split (py_strip s)) as [|tok toks] eqn:E; cbn [py_index0 bind].
  - split; split; intros; [apply Hs; reflexivity | reflexivity
                           | apply Hs; reflexivity | reflexivity].
  - assert (Hf : all_space s <> true) by (intros H; apply Hs in H; discriminate).
    split; split; intros H; try (exfalso; exact (Hf H)); exfalso; revert H.
    + destruct (str_in tok inf_sentinels) eqn:T; [discriminate|].
      cbn [check_value_object].
      destruct (assign_and_check_unit_consistency s (Some (unit (lbase d))))
        as [q|e] eqn:A; cbn [bind]; [discriminate|].
      intros H. injection H as ->. exact (assign_no_index_error _ _ A).
    + apply period_branch_no_index_error; [discriminate|].
      intros q; discriminate.
Qed.

Lemma C10_blank_period_index_error_witness :
  str_in (variable_type (example_gcv arbitrary_type five_values))
    quantitative_variable_types = true /\
  linear_set_period (example_linear 3) (PStr " 	 ") = Err IndexError /\
  linear_set_period (example_linear 3) (PStr (utf8_encode 160)) = Err IndexError /\
  cv_set_period (example_gcv arbitrary_type five_values) (PStr "")
    = Err IndexError.
Proof.
  split; [reflexivity|]. split; [|split].
  - apply (proj1 (C10_blank_period_index_error (example_linear 3)
             (example_gcv arbitrary_type five_values) " 	 " eq_refl)).
    reflexivity.
  - apply (proj1 (C10_blank_period_index_error (example_linear 3)
             (example_gcv arbitrary_type five_values) (utf8_encode 160) eq_refl)).
    vm_compute. reflexivity.
  - apply (proj2 (C10_blank_period_index_error (example_linear 3)
             (example_gcv arbitrary_type five_values) "" eq_refl)).
    reflexivity.
Defined.

(** ** More of the code: helper lemmas *)

Lemma unit_eqb_refl (u : unit_t) : unit_eqb u u = true.
Proof.
  unfold unit_eqb. rewrite String.eqb_refl, Z.eqb_refl, Z.eqb_refl, Pos.eqb_refl.
  rewrite (proj2 (Qeq_bool_iff _ _) (Qeq_refl _)). reflexivity.
Qed.

Lemma qto_same (x : ext) (u : unit_t) : qto (mkQ x u) u = Ok x.
Proof. unfold qto. cbn [qunit qval]. rewrite unit_eqb_refl. reflexivity. Qed.

Lemma get_coordinates_members (d d' : linear_dim) :
  get_coordinates d = Ok d' -> d' = with_coordinates d (coordinates d').
Proof.
  unfold get_coordinates. destruct (qto _ _); cbn [bind]; [|discriminate].
  destruct (fft_index _ _); cbn [bind]; [|discriminate].
  intros H. injection H as <-. reflexivity.
Qed.

Lemma seq_shift_add (s n : nat) : seq s n = map (Nat.add s) (seq 0 n).
Proof.
  revert s; induction n as [|n IH]; intros s; [reflexivity|].
  cbn [seq map]. rewrite Nat.add_0_r. f_equal.
  rewrite IH, <- seq_shift, map_map. apply map_ext. intros k. lia.
Qed.

Lemma arange_app (a b c : Z) :
  a <= b <= c -> arange a c = arange a b ++ arange b c.
Proof.
  intros H. unfold arange.
  replace (Z.to_nat (c - a)) with (Z.to_nat (b - a) + Z.to_nat (c - b))%nat by lia.
  rewrite seq_app, map_app. f_equal.
  rewrite (seq_shift_add (0 + Z.to_nat (b - a))), map_map. apply map_ext.
  intros k. lia.
Qed.

Lemma drop_space_nil (l : list string) :
  drop_space l = [] <-> forallb is_space_char l = true.
Proof.
  induction l as [|x l IH]; [tauto|]. cbn [drop_space forallb].
  destruct (is_space_char x); [exact IH|]. split; discriminate.
Qed.

Lemma py_strip_eqb_nil (l : string) :
  String.eqb (py_strip l) EmptyString = all_space l.
Proof.
  destruct (py_strip_chars l) as [E _].
  assert (H : py_strip l = EmptyString <-> all_space l = true).
  { unfold all_space. rewrite <- forallb_strip. split.
    - intros Hs. rewrite Hs in E. cbn in E. rewrite <- E. reflexivity.
    - intros Ha. rewrite forallb_strip in Ha.
      assert (D : drop_space (rev (drop_space (py_chars l))) = []).
      { apply drop_space_nil. rewrite forallb_rev, forallb_drop_space.
        exact Ha. }
      unfold py_strip. rewrite D. reflexivity. }
  destruct (String.eqb_spec (py_strip l) EmptyString) as [Hs|Hs];
    destruct (all_space l); try reflexivity.
  - symmetry. apply H. exact Hs.
  - exfalso. apply Hs, H. reflexivity.
Qed.

Lemma label_is_set_all_space (l : string) : label_is_set l = negb (all_space l).
Proof. unfold label_is_set. rewrite py_strip_eqb_nil. reflexivity. Qed.

Lemma if_nil_iff {A} (c : bool) (x : A) :
  (if c then [x] else []) = [] <-> c = false.
Proof. destruct c; split; intros; try reflexivity; discriminate. Qed.

Lemma dict_lookup_app (k : string) (d1 d2 : dict) :
  dict_lookup k (d1 ++ d2) =
  match dict_lookup k d1 with Some v => Some v | None => dict_lookup k d2 end.
Proof.
  induction d1 as [|[k' v] d1 IH]; [reflexivity|].
  cbn. destruct (String.eqb k k'); [reflexivity | exact IH].
Qed.

Lemma py_map_forall2 {A B} (f : A -> result B) (l : list A) (l' : list B) :
  py_map f l = Ok l' -> Forall2 (fun x y => f x = Ok y) l l'.
Proof.
  revert l'; induction l as [|x l IH]; intros l' H; cbn in H.
  - injection H as <-. constructor.
  - destruct (f x) as [y|e] eqn:F; cbn [bind] in H; [|discriminate].
    destruct (py_map f l) as [ys|e] eqn:P; cbn [bind] in H; [|discriminate].
    injection H as <-. constructor; [exact F | apply IH; reflexivity].
Qed.

Lemma rstrip_nul_id (s : string) :
  (forall p, s <> (p ++ String "000" EmptyString)%string) -> rstrip_nul s = s.
Proof.
  induction s as [|c s IH]; intros H; [reflexivity|].
  cbn [rstrip_nul]. rewrite IH.
  - destruct s as [|a s'].
    + destruct (Ascii.eqb_spec c "000"%char) as [E|E]; [|reflexivity].
      exfalso. apply (H EmptyString). rewrite E. reflexivity.
    + reflexivity.
  - intros p E. apply (H (String c p)). rewrite E. reflexivity.
Qed.

Lemma new_linear_default_members (N : Z) (incr lab rlab : string) (fft : bool)
    (q : quantity) :
  assign_and_check_unit_consistency incr None = Ok q ->
  new_linear N incr None None None None lab fft None None None rlab None =
  get_coordinates
    (mkLinear (mkBase (mkQ (Fin 0) (qunit q)) (mkQ (Fin 0) (qunit q))
                 (Some (physical_type (qunit q)))
                 (mkQ PInf (qunit q)) lab (qunit q))
       N q fft
       (mkBase (mkQ (Fin 0) (unit_inv (qunit q)))
          (mkQ (Fin 0) (unit_inv (qunit q)))
          (Some (physical_type (unit_inv (qunit q))))
          (mkQ PInf (unit_inv (qunit q))) rlab (unit_inv (qunit q))) []).
Proof. intros H. unfold new_linear. rewrite H. reflexivity. Qed.

Lemma default_base_dictionary (vof : quantity -> string) (u : unit_t)
    (lab : string) :
  all_space lab = true ->
  get_quantitative_dictionary vof
    (mkBase (mkQ (Fin 0) u) (mkQ (Fin 0) u) (Some (physical_type u))
       (mkQ PInf u) lab u) =
  (if quantity_is_set (Some (physical_type u))
   then [("quantity"%string, DStr (physical_type u))] else []).
Proof.
  intros H. unfold get_quantitative_dictionary.
  cbn -[quantity_is_set physical_type label_is_set].
  rewrite label_is_set_all_space, H, app_nil_r. reflexivity.
Qed.

Lemma app_nil_iff {A} (l l' : list A) : l ++ l' = [] <-> l = [] /\ l' = [].
Proof.
  split; [apply app_eq_nil|]. intros [-> ->]. reflexivity.
Qed.

(** ** More of the code: the linearly sampled dimension *)

(** With [fft_output_order] false, [_get_coordinates] writes
    [arange(N) * increment]: [N] coordinates (none when [N <= 0]), the [j]-th
    being [j*m] for the increment [m] expressed in the dimension's unit, and
    no other member changes; when the increment cannot be expressed in the
    unit, the conversion's error is raised. *)
Theorem get_coordinates_ordered (d : linear_dim) :
  fft_output_order d = false ->
  (forall m, qto (increment d) (unit (lbase d)) = Ok m ->
     exists d', get_coordinates d = Ok d' /\
       d' = with_coordinates d (coordinates d') /\
       length (coordinates d') = Z.to_nat (number_of_points d) /\
       forall j, 0 <= j < number_of_points d ->
         nth_error (coordinates d') (Z.to_nat j) = Some (ext_zmul j m)) /\
  (forall e, qto (increment d) (unit (lbase d)) = Err e ->
     get_coordinates d = Err e).
Proof.
  intros Hf. split.
  - intros m Hm. unfold get_coordinates. rewrite Hm. cbn [bind].
    unfold fft_index. rewrite Hf. cbn [bind].
    eexists; split; [reflexivity|]. split; [reflexivity|].
    cbn [coordinates with_coordinates]. split.
    + rewrite length_map, arange_length. f_equal; lia.
    + intros j Hj. rewrite nth_error_map, arange_nth_error by lia.
      cbn. do 2 f_equal. lia.
  - intros e He. unfold get_coordinates. rewrite He. reflexivity.
Qed.

Lemma get_coordinates_ordered_witness :
  fft_output_order (example_linear 4) = false /\
  exists d', get_coordinates (example_linear 4) = Ok d' /\
    nth_error (coordinates d') 3 = Some (ext_zmul 3 (Fin 1)).
Proof.
  split; [reflexivity|].
  destruct (proj1 (get_coordinates_ordered (example_linear 4) eq_refl) (Fin 1)
              eq_refl) as [d' [H [_ [_ Hn]]]].
  exists d'. split; [exact H|]. apply (Hn 3). cbn; lia.
Defined.

(** With [fft_output_order] true and [N >= 0] points, the
    coordinates are a rearrangement of the ascending grid
    [[-(N//2), ..., (N-1)//2] * m]; for [N < 0] the FFT order raises
    [ValueError] ([np.empty] of a negative size) while the ascending order
    gives no coordinate. *)
Theorem get_coordinates_fft_permutation (d : linear_dim) (m : ext) :
  qto (increment d) (unit (lbase d)) = Ok m ->
  (0 <= number_of_points d -> fft_output_order d = true ->
   exists d', get_coordinates d = Ok d' /\
     Permutation (coordinates d')
       (map (fun j => ext_zmul j m)
          (arange (- (number_of_points d / 2))
             ((number_of_points d - 1) / 2 + 1)))) /\
  (number_of_points d < 0 ->
   get_coordinates (with_fft_output_order d true) = Err ValueError /\
   get_coordinates (with_fft_output_order d false)
     = Ok (with_coordinates (with_fft_output_order d false) [])).
Proof.
  intros Hm. split.
  - intros HN Hf. unfold get_coordinates. rewrite Hm. cbn [bind].
    unfold fft_index. rewrite Hf.
    replace (number_of_points d <? 0) with false by (symmetry; apply Z.ltb_ge; lia).
    cbn [bind]. eexists; split; [reflexivity|]. cbn [coordinates with_coordinates].
    apply Permutation_map.
    assert (Hh : 0 <= number_of_points d / 2) by (apply Z.div_pos; lia).
    assert (Hn : 0 <= (number_of_points d - 1) / 2 + 1).
    { pose proof (Z.div_mod (number_of_points d - 1) 2 ltac:(lia)).
      pose proof (Z.mod_pos_bound (number_of_points d - 1) 2 ltac:(lia)). lia. }
    rewrite (arange_app (- (number_of_points d / 2)) 0
      ((number_of_points d - 1) / 2 + 1)) by lia.
    apply Permutation_app_comm.
  - intros HN. unfold get_coordinates. cbn [increment lbase with_fft_output_order].
    rewrite Hm. cbn [bind number_of_points fft_output_order with_fft_output_order fft_index].
    replace (number_of_points d <? 0) with true by (symmetry; apply Z.ltb_lt; lia).
    split; [reflexivity|]. unfold arange.
    replace (Z.to_nat (number_of_points d - 0)) with 0%nat by lia. reflexivity.
Qed.

Lemma get_coordinates_fft_permutation_witness :
  0 <= number_of_points (with_fft_output_order (example_linear 5) true) /\
  exists d', get_coordinates (with_fft_output_order (example_linear 5) true) = Ok d' /\
    Permutation (coordinates d') (map (fun j => ext_zmul j (Fin 1)) [-2; -1; 0; 1; 2]).
Proof.
  split; [cbn; lia|].
  exact (proj1 (get_coordinates_fft_permutation
                  (with_fft_output_order (example_linear 5) true) (Fin 1) eq_refl)
           ltac:(cbn; lia) eq_refl).
Defined.

(** On a dimension whose coordinates are up to date and in the
    ascending order, assigning [FFT_output_order = True] and then [False]
    gives back the same dimension. *)
Theorem fft_output_order_round_trip (d d1 : linear_dim) :
  get_coordinates d = Ok d -> fft_output_order d = false ->
  set_FFT_output_order d (PBool true) = Ok d1 ->
  set_FFT_output_order d1 (PBool false) = Ok d.
Proof.
  intros Hg Hf Hs. destruct d as [b N i f r c]. cbn [fft_output_order] in Hf.
  subst f.
  unfold set_FFT_output_order, get_coordinates, with_fft_output_order,
    with_coordinates in *.
  cbn [increment lbase number_of_points fft_output_order reciprocal
       coordinates] in *.
  destruct (qto i (unit b)) as [m|e] eqn:Q; cbn [bind] in *; [|discriminate].
  destruct (fft_index N true) as [idx|e]; cbn [bind] in Hs; [|discriminate].
  injection Hs as <-.
  cbn [increment lbase number_of_points fft_output_order reciprocal coordinates].
  rewrite Q. cbn [bind]. exact Hg.
Qed.

Lemma fft_output_order_round_trip_witness :
  exists d d1, linear_G 6 = Ok d /\ set_FFT_output_order d (PBool true) = Ok d1 /\
    set_FFT_output_order d1 (PBool false) = Ok d.
Proof.
  do 2 eexists. split; [vm_compute; reflexivity|]. split; [vm_compute; reflexivity|].
  apply fft_output_order_round_trip; vm_compute; reflexivity.
Defined.

(** The constructor with only the count, the increment string, the
    labels and the FFT flag given builds a dimension in the increment's unit
    [u] with zero reference and origin offsets, an infinite period and the
    quantity [_check_quantity] gives for [u] (its physical type); its
    reciprocal has the same defaults in [u ** -1]; the coordinates are those
    of [_get_coordinates], [j * increment] for [j] in the index array of the
    FFT flag ([arange(N)] when it is false, the FFT order when it is true),
    and a negative count with the FFT flag set raises as [np.empty] does. *)
Theorem new_linear_defaults (N : Z) (incr lab rlab : string) (fft : bool)
    (q : quantity) :
  assign_and_check_unit_consistency incr None = Ok q ->
  new_linear N incr None None None None lab fft None None None rlab None =
  match fft_index N fft with
  | Err e => Err e
  | Ok idx =>
      Ok (mkLinear (mkBase (mkQ (Fin 0) (qunit q)) (mkQ (Fin 0) (qunit q))
                      (Some (physical_type (qunit q)))
                      (mkQ PInf (qunit q)) lab (qunit q))
            N q fft
            (mkBase (mkQ (Fin 0) (unit_inv (qunit q)))
               (mkQ (Fin 0) (unit_inv (qunit q)))
               (Some (physical_type (unit_inv (qunit q))))
               (mkQ PInf (unit_inv (qunit q))) rlab (unit_inv (qunit q)))
            (map (fun j => ext_zmul j (qval q)) idx))
  end.
Proof.
  intros H. rewrite (new_linear_default_members N incr lab rlab fft q H).
  unfold get_coordinates.
  cbn [increment lbase unit number_of_points fft_output_order].
  destruct q as [v u]. rewrite qto_same. cbn [bind qval qunit].
  destruct (fft_index N fft); reflexivity.
Qed.

Lemma new_linear_defaults_witness :
  assign_and_check_unit_consistency "2 T" None = Ok (mkQ (Fin 2) tesla) /\
  new_linear 3 "2 T" None None None None "B" true None None None "" None =
  match fft_index 3 true with
  | Err e => Err e
  | Ok idx =>
      Ok (mkLinear (mkBase (mkQ (Fin 0) tesla) (mkQ (Fin 0) tesla)
                      (Some (physical_type tesla)) (mkQ PInf tesla) "B" tesla)
            3 (mkQ (Fin 2) tesla) true
            (mkBase (mkQ (Fin 0) (unit_inv tesla)) (mkQ (Fin 0) (unit_inv tesla))
               (Some (physical_type (unit_inv tesla)))
               (mkQ PInf (unit_inv tesla)) "" (unit_inv tesla))
            (map (fun j => ext_zmul j (Fin 2)) idx))
  end.
Proof.
  split; [vm_compute; reflexivity|].
  apply (new_linear_defaults 3 "2 T" "B" "" true (mkQ (Fin 2) tesla)).
  vm_compute. reflexivity.
Defined.

(** [_get_quantitative_dictionary] is empty exactly when the
    reference and origin offsets are zero, the quantity is [None],
    ["unknown"] or ["dimensionless"], the period is zero or [+inf] and the
    label is blank (empty or whitespace only, Unicode whitespace such as
    U+00A0 included, as [str.strip] removes it). *)
Theorem quantitative_dictionary_empty (vof : quantity -> string) (b : base_var) :
  get_quantitative_dictionary vof b = [] <->
  ext_is_zero (qval (reference_offset b)) = true /\
  ext_is_zero (qval (origin_offset b)) = true /\
  (quantity_name b = None \/ quantity_name b = Some "unknown"%string \/
   quantity_name b = Some "dimensionless"%string) /\
  (ext_is_zero (qval (period b)) = true \/ qval (period b) = PInf) /\
  all_space (label b) = true.
Proof.
  unfold get_quantitative_dictionary.
  rewrite !app_nil_iff, !if_nil_iff, label_is_set_all_space, negb_false_iff,
    negb_false_iff, negb_false_iff.
  assert (Hq : (match quantity_name b with
                | Some s => if quantity_is_set (Some s)
                            then [("quantity"%string, DStr s)] else []
                | None => [] end) = [] <->
               (quantity_name b = None \/ quantity_name b = Some "unknown"%string \/
                quantity_name b = Some "dimensionless"%string)).
  { destruct (quantity_name b) as [s|].
    - rewrite if_nil_iff. cbn [quantity_is_set str_in existsb].
      rewrite orb_false_r, negb_false_iff.
      split.
      + intros H. apply orb_true_iff in H as [H|H]; apply String.eqb_eq in H;
          subst; tauto.
      + intros [H|[H|H]]; [discriminate| |]; injection H as ->; reflexivity.
    - tauto. }
  rewrite Hq.
  assert (Hp : period_is_set (qval (period b)) = false <->
               ext_is_zero (qval (period b)) = true \/ qval (period b) = PInf).
  { unfold period_is_set. rewrite negb_false_iff.
    destruct (qval (period b)); cbn; rewrite ?orb_true_r, ?orb_false_r;
      split; intros H; try tauto; try (left; exact H);
      destruct H as [H|H]; try discriminate; exact H. }
  rewrite Hp. tauto.
Qed.

Lemma quantitative_dictionary_empty_witness :
  get_quantitative_dictionary (fun _ => EmptyString)
    (mkBase (mkQ (Fin 0) gauss) (mkQ (Fin 0) gauss)
       (Some "dimensionless"%string) (mkQ PInf gauss)
       (String.append (utf8_encode 160) " ") gauss) = [] /\
  get_quantitative_dictionary (fun _ => EmptyString)
    (mkBase (mkQ (Fin 0) gauss) (mkQ (Fin 0) gauss)
       (Some "magnetic flux density"%string) (mkQ PInf gauss) "" gauss) <> [].
Proof.
  split.
  - apply (proj2 (quantitative_dictionary_empty _ _)).
    split; [reflexivity|]. split; [reflexivity|].
    split; [right; right; reflexivity|]. split; [right; reflexivity|].
    vm_compute. reflexivity.
  - intros H. apply (proj1 (quantitative_dictionary_empty _ _)) in H.
    destruct H as [_ [_ [[H|[H|H]] _]]]; discriminate H.
Defined.

(** A linear dimension built with only the count, the increment, the
    FFT flag and blank labels serializes to exactly [type],
    [number_of_points] and [increment], then [quantity] with the physical
    type of the increment's unit [u] when that type is a name (not
    ["unknown"] or ["dimensionless"]), then [FFT_output_order] when the flag
    is true, then [reciprocal] holding only the physical type of [u ** -1]
    when that one is a name, and nothing else. *)
Theorem new_linear_dictionary (vof : quantity -> string) (N : Z)
    (incr lab rlab : string) (fft : bool) (d : linear_dim) :
  all_space lab = true -> all_space rlab = true ->
  new_linear N incr None None None None lab fft None None None rlab None = Ok d ->
  let u := qunit (increment d) in
  linear_get_python_dictionary vof d =
    [("type"%string, DStr "linear_spacing");
     ("number_of_points"%string, DInt N);
     ("increment"%string, DStr (vof (increment d)))] ++
    (if quantity_is_set (Some (physical_type u))
     then [("quantity"%string, DStr (physical_type u))] else []) ++
    (if fft then [("FFT_output_order"%string, DBool true)] else []) ++
    reciprocal_entry
      (if quantity_is_set (Some (physical_type (unit_inv u)))
       then [("quantity"%string, DStr (physical_type (unit_inv u)))] else []).
Proof.
  intros Hl Hr Hd u.
  destruct (assign_and_check_unit_consistency incr None) as [q|e] eqn:A.
  - rewrite (new_linear_default_members N incr lab rlab fft q A) in Hd.
    pose proof (get_coordinates_members _ _ Hd) as E.
    subst u. rewrite E.
    unfold linear_get_python_dictionary. cbn [lbase reciprocal with_coordinates
      number_of_points fft_output_order increment].
    rewrite !default_base_dictionary by assumption.
    reflexivity.
  - unfold new_linear in Hd. rewrite A in Hd. discriminate.
Qed.

Lemma new_linear_dictionary_witness :
  exists d, new_linear 4 "1 G" None None None None "" true None None None " " None
              = Ok d /\
  linear_get_python_dictionary (fun _ => "1.0 G"%string) d =
    [("type"%string, DStr "linear_spacing"); ("number_of_points"%string, DInt 4);
     ("increment"%string, DStr "1.0 G");
     ("quantity"%string, DStr "magnetic flux density");
     ("FFT_output_order"%string, DBool true)].
Proof.
  eexists. split; [vm_compute; reflexivity|].
  match goal with |- linear_get_python_dictionary _ ?d' = _ => set (D := d') end.
  refine (eq_trans (new_linear_dictionary (fun _ => "1.0 G"%string) 4 "1 G" ""
            " " true D eq_refl eq_refl eq_refl) _).
  vm_compute. reflexivity.
Defined.

(** After [_swap], the dimension's unit is the reciprocal unit
    [u ** -1] while the increment stays in [u]; so for any dimension built
    by the constructor with an increment of non-zero dimension power,
    recomputing the coordinates after [_swap] (directly or through the
    [FFT_output_order] setter) raises [DimensionalityError]. *)
Theorem swap_then_recompute_fails (N : Z) (incr lab rlab : string) (fft : bool)
    (q : quantity) (d : linear_dim) :
  assign_and_check_unit_consistency incr None = Ok q ->
  u_pow (qunit q) <> 0 ->
  new_linear N incr None None None None lab fft None None None rlab None = Ok d ->
  get_coordinates (swap d) = Err DimensionalityError /\
  (forall b, set_FFT_output_order (swap d) (PBool b) = Err DimensionalityError).
Proof.
  intros A Hp Hd.
  rewrite (new_linear_default_members N incr lab rlab fft q A) in Hd.
  pose proof (get_coordinates_members _ _ Hd) as E. rewrite E.
  assert (Hq : qto q (unit_inv (qunit q)) = Err DimensionalityError).
  { unfold qto, unit_eqb, unit_consistent, unit_inv. cbn [u_dim u_pow u_scale].
    replace (u_pow (qunit q) =? - u_pow (qunit q)) with false
      by (symmetry; apply Z.eqb_neq; lia).
    rewrite !andb_false_r. reflexivity. }
  split.
  - unfold get_coordinates. cbn. rewrite Hq. reflexivity.
  - intros b. unfold set_FFT_output_order, get_coordinates. cbn. rewrite Hq.
    reflexivity.
Qed.

Lemma swap_then_recompute_fails_witness :
  exists d, linear_G 3 = Ok d /\
    set_FFT_output_order (swap d) (PBool true) = Err DimensionalityError.
Proof.
  eexists. split; [vm_compute; reflexivity|].
  apply (proj2 (swap_then_recompute_fails 3 "1 G" "" "" false (mkQ (Fin 1) gauss) _
                  ltac:(vm_compute; reflexivity) ltac:(cbn; lia)
                  ltac:(vm_compute; reflexivity))).
Defined.

(** ** More of the code: the arbitrarily sampled and labeled dimensions *)

Lemma arbitrary_get_coordinates_members (d d' : arbitrary_dim) (vals : list string) :
  arbitrary_get_coordinates d vals = Ok d' ->
  abase d' = abase d /\ a_reciprocal d' = a_reciprocal d /\ a_values d' = vals /\
  Forall2 (fun s c => exists q,
             assign_and_check_unit_consistency s (Some (unit (abase d))) = Ok q /\
             qto q (unit (abase d)) = Ok c) vals (a_coordinates d') /\
  a_number_of_points d' = Z.of_nat (length (a_coordinates d')).
Proof.
  unfold arbitrary_get_coordinates.
  destruct (py_map _ vals) as [vs|e] eqn:P; cbn [bind]; [|discriminate].
  intros H. injection H as <-. cbn.
  repeat split. apply py_map_forall2 in P.
  refine (Forall2_impl _ _ P). intros s c H.
  destruct (assign_and_check_unit_consistency s _) as [q|e]; cbn [bind] in H;
    [|discriminate].
  exists q. split; [reflexivity | exact H].
Qed.

(** The constructor raises [IndexError] on an empty list of values
    (it reads [_values[0]] for the unit), while the [values] setter accepts
    the empty list and leaves a dimension with no point. *)
Theorem arbitrary_empty_values (ro oo qn per rro roo rqn rper : option string)
    (lab rlab : string) (d : arbitrary_dim) :
  new_arbitrary [] ro oo qn per lab rro roo rqn rlab rper = Err IndexError /\
  arbitrary_set_values d [] = Ok (mkArbitrary (abase d) 0 [] [] (a_reciprocal d)).
Proof. split; reflexivity. Qed.

(** A successful assignment to [values] stores the list as given,
    sets the count to its length and writes one coordinate per value, the
    value parsed, checked against the dimension's unit and expressed in
    it; the base and reciprocal members are unchanged and the serialized
    dictionary's [values] entry is the assigned list. *)
Theorem arbitrary_set_values_members (vof : quantity -> string)
    (d d' : arbitrary_dim) (vals : list string) :
  arbitrary_set_values d vals = Ok d' ->
  a_values d' = vals /\
  a_number_of_points d' = Z.of_nat (length vals) /\
  Forall2 (fun s c => exists q,
             assign_and_check_unit_consistency s (Some (unit (abase d))) = Ok q /\
             qto q (unit (abase d)) = Ok c) vals (a_coordinates d') /\
  abase d' = abase d /\ a_reciprocal d' = a_reciprocal d /\
  dict_lookup "values" (arbitrary_get_python_dictionary vof d') = Some (DList vals).
Proof.
  intros H. destruct (arbitrary_get_coordinates_members d d' vals H)
    as [Hb [Hr [Hv [Hc Hn]]]].
  split; [exact Hv|]. split.
  - rewrite Hn, (Forall2_length Hc). reflexivity.
  - split; [exact Hc|]. split; [exact Hb|]. split; [exact Hr|].
    unfold arbitrary_get_python_dictionary. cbn. rewrite Hv. reflexivity.
Qed.

Lemma arbitrary_set_values_members_witness :
  exists d d', new_arbitrary ["1 G"]%string None None None None "" None None None ""
                 None = Ok d /\
    arbitrary_set_values d ["0 G"; "1 mT"]%string = Ok d' /\
    a_number_of_points d' = 2.
Proof.
  do 2 eexists. split; [vm_compute; reflexivity|].
  match goal with |- arbitrary_set_values ?d _ = _ /\ _ => set (D := d) end.
  split; [vm_compute; reflexivity|].
  match goal with |- a_number_of_points ?d' = _ => set (D' := d') end.
  exact (proj1 (proj2 (arbitrary_set_values_members (fun _ => EmptyString) D D'
           ["0 G"; "1 mT"]%string ltac:(vm_compute; reflexivity)))).
Defined.

Lemma new_arbitrary_default_members (v0 : string) (vs : list string)
    (lab rlab : string) :
  new_arbitrary (v0 :: vs) None None None None lab None None None rlab None =
  (i <- assign_and_check_unit_consistency v0 None ;;
   arbitrary_get_coordinates
     (mkArbitrary
        (mkBase (mkQ (Fin 0) (qunit i)) (mkQ (Fin 0) (qunit i))
           (Some (physical_type (qunit i)))
           (mkQ PInf (qunit i)) lab (qunit i)) 0 [] []
        (mkBase (mkQ (Fin 0) (unit_inv (qunit i)))
           (mkQ (Fin 0) (unit_inv (qunit i)))
           (Some (physical_type (unit_inv (qunit i))))
           (mkQ PInf (unit_inv (qunit i))) rlab (unit_inv (qunit i))))
     (v0 :: vs)).
Proof.
  unfold new_arbitrary. cbn [py_index0 bind].
  destruct (assign_and_check_unit_consistency v0 None); reflexivity.
Qed.

(** An arbitrarily sampled dimension built from its values with
    blank labels and all other arguments defaulted serializes to exactly
    [type] ([arbitrary_spacing]) and [values], the list given, then
    [quantity] with the physical type of the unit [u] of the first value
    when that type is a name (not ["unknown"] or ["dimensionless"]), then
    [reciprocal] holding only the physical type of [u ** -1] when that one
    is a name; there is no [number_of_points] entry. *)
Theorem new_arbitrary_dictionary (vof : quantity -> string) (vals : list string)
    (lab rlab : string) (d : arbitrary_dim) :
  all_space lab = true -> all_space rlab = true ->
  new_arbitrary vals None None None None lab None None None rlab None = Ok d ->
  let u := unit (abase d) in
  arbitrary_get_python_dictionary vof d =
    [("type"%string, DStr "arbitrary_spacing"); ("values"%string, DList vals)] ++
    (if quantity_is_set (Some (physical_type u))
     then [("quantity"%string, DStr (physical_type u))] else []) ++
    reciprocal_entry
      (if quantity_is_set (Some (physical_type (unit_inv u)))
       then [("quantity"%string, DStr (physical_type (unit_inv u)))] else []).
Proof.
  intros Hl Hr H u. destruct vals as [|v0 vs]; [discriminate|].
  rewrite new_arbitrary_default_members in H.
  destruct (assign_and_check_unit_consistency v0 None) as [i|e]; cbn [bind] in H;
    [|discriminate].
  destruct (arbitrary_get_coordinates_members _ _ _ H) as [Hb [Hrc [Hv _]]].
  subst u. unfold arbitrary_get_python_dictionary. rewrite Hb, Hrc, Hv.
  cbn [abase a_reciprocal unit]. rewrite !default_base_dictionary by assumption.
  reflexivity.
Qed.

Lemma new_arbitrary_dictionary_witness :
  exists d, new_arbitrary ["1 G"; "5 G"]%string None None None None "" None None
              None "" None = Ok d /\
  arbitrary_get_python_dictionary (fun _ => EmptyString) d =
    [("type"%string, DStr "arbitrary_spacing");
     ("values"%string, DList ["1 G"; "5 G"]%string);
     ("quantity"%string, DStr "magnetic flux density")].
Proof.
  eexists. split; [vm_compute; reflexivity|].
  match goal with |- arbitrary_get_python_dictionary _ ?d' = _ => set (D := d') end.
  refine (eq_trans (new_arbitrary_dictionary (fun _ => EmptyString)
            ["1 G"; "5 G"]%string "" "" D eq_refl eq_refl eq_refl) _).
  vm_compute. reflexivity.
Defined.

(** Assigning [values] to a labeled dimension sets the count to the
    list's length, and when no value ends with a NUL character (which
    numpy's string arrays drop) the serialized dictionary is exactly
    [type] ([labeled]) and [values], the list assigned; assigning [label] or
    [reverse] afterwards does not change the dictionary. *)
Theorem labeled_values_round_trip (d : labeled_dim) (vals : list string)
    (v : pyval) :
  (forall s p, In s vals -> s <> (p ++ String "000" EmptyString)%string) ->
  lb_number_of_points (labeled_set_values d vals) = Z.of_nat (length vals) /\
  labeled_get_python_dictionary (labeled_set_values d vals) =
    [("type"%string, DStr "labeled"); ("values"%string, DList vals)] /\
  (forall d', labeled_set_label (labeled_set_values d vals) v = Ok d' \/
              labeled_set_reverse (labeled_set_values d vals) v = Ok d' ->
     labeled_get_python_dictionary d' =
     labeled_get_python_dictionary (labeled_set_values d vals)).
Proof.
  intros H. split; [reflexivity|]. split.
  - unfold labeled_get_python_dictionary. cbn.
    rewrite (map_ext_in _ (fun s => s)), map_id; [reflexivity|].
    intros s Hs. apply rstrip_nul_id. intros p. exact (H s p Hs).
  - intros d' [E|E].
    + unfold labeled_set_label in E. destruct v; try discriminate.
      injection E as <-. reflexivity.
    + unfold labeled_set_reverse in E. destruct v; try discriminate.
      cbn in E. injection E as <-. reflexivity.
Qed.

Lemma labeled_values_round_trip_witness :
  labeled_get_python_dictionary
    (labeled_set_values (new_labeled [] (PStr "") (PBool false)) ["Cu"; "Ag"]%string) =
    [("type"%string, DStr "labeled"); ("values"%string, DList ["Cu"; "Ag"]%string)].
Proof.
  refine (proj1 (proj2 (labeled_values_round_trip
    (new_labeled [] (PStr "") (PBool false)) ["Cu"; "Ag"]%string PNone _))).
  intros s p [<-|[<-|[]]] E;
    destruct p as [|a [|b [|c p]]]; cbn in E; try discriminate;
    injection E; intros; subst; discriminate.
Defined.

(** ** More of the code: [_nonQuantitativeControlledVariable] *)

(** [self.name = value] on a non-quantitative variable succeeds only
    for [label] (which takes any value) and [reverse] (a boolean; any other
    value raises [TypeError]); every other name raises [AttributeError].
    No assignment changes the count, the coordinates, the sampling type or
    the non-quantitative flag. *)
Theorem nq_setattr_only_label_reverse (s : nq_var) (name : string) (v : pyval) :
  (name <> "label"%string -> name <> "reverse"%string ->
     nq_setattr s name v = Err AttributeError) /\
  nq_setattr s "label" v = Ok (nq_set_label s v) /\
  ((forall b, v <> PBool b) -> nq_setattr s "reverse" v = Err TypeError) /\
  (forall s', nq_setattr s name v = Ok s' ->
     nq_number_of_points s' = nq_number_of_points s /\
     nq_coordinates s' = nq_coordinates s /\
     nq_sampling_type s' = nq_sampling_type s /\
     nq_non_quantitative s' = nq_non_quantitative s).
Proof.
  split; [|split; [reflexivity|split]].
  - intros H1 H2. unfold nq_setattr.
    destruct (str_in name nq_slots); [reflexivity|].
    destruct (String.eqb_spec name "label"); [contradiction|].
    destruct (String.eqb_spec name "reverse"); [contradiction|]. reflexivity.
  - intros H. unfold nq_setattr, nq_set_reverse. cbn.
    destruct v; try reflexivity. exfalso. exact (H b eq_refl).
  - intros s' H. unfold nq_setattr in H.
    destruct (str_in name nq_slots); [discriminate|].
    destruct (String.eqb name "label").
    + injection H as <-. repeat split.
    + destruct (String.eqb name "reverse"); [|discriminate].
      unfold nq_set_reverse in H.
      destruct (check_and_assign_bool v); cbn [bind] in H; [|discriminate].
      injection H as <-. repeat split.
Qed.

(** The [label] setter stores any value, but serializing then raises
    [AttributeError] when the label is an [int], a [bool] or [None] (they
    have no [strip] method); with a string label the dictionary has
    [coordinates] and [non_quantitative = True], and a [label] entry
    exactly when the label is not blank (empty or Unicode whitespace
    only). *)
Theorem nq_dictionary_label (s : nq_var) (v : pyval) :
  ((forall l, v <> PStr l) ->
     nq_get_python_dictonary (nq_set_label s v) = Err AttributeError) /\
  (forall l, exists dd, nq_get_python_dictonary (nq_set_label s (PStr l)) = Ok dd /\
     dict_lookup "label" dd = (if all_space l then None else Some (DStr l)) /\
     dict_lookup "coordinates" dd = Some (DList (nq_coordinates s)) /\
     dict_lookup "non_quantitative" dd = Some (DBool true)).
Proof.
  split.
  - intros H. unfold nq_get_python_dictonary. cbn [nq_label nq_set_label].
    destruct v; try reflexivity. exfalso. exact (H s0 eq_refl).
  - intros l. eexists. split; [reflexivity|].
    rewrite !dict_lookup_app. cbn [dict_lookup nq_coordinates nq_set_label
      nq_reverse String.eqb].
    rewrite label_is_set_all_space.
    split; [|split; reflexivity].
    destruct (nq_reverse s), (all_space l); reflexivity.
Qed.

(** ** More of the code: the offsets and [made_dimensionless] of the
    studium variable *)

Lemma nl_get_coordinates_plain (s : nl_var) (cs : list Q) (r o : Q) :
  nl_made_dimensionless s = false ->
  nl_coord_unit s = nl_unit s ->
  nl_coordinates s = map Fin cs ->
  qto (nl_reference_offset s) (nl_unit s) = Ok (Fin r) ->
  qto (nl_origin_offset s) (nl_unit s) = Ok (Fin o) ->
  nl_get_coordinates s =
    (Ok (map (fun c => Fin (c + - r + o)) cs),
     nl_with_coordinates s (map (fun c => Fin (c + - r)) cs) (nl_unit s)).
Proof.
  intros Hm Hu Hc Hr Ho. unfold nl_get_coordinates.
  rewrite Hr. cbn [bind]. rewrite Hu, qto_same. cbn [bind]. rewrite Ho.
  cbn [bind]. rewrite Hm, Hc, qto_same, !map_map. reflexivity.
Qed.

(** For a variable that is not made dimensionless and whose
    coordinates are in its unit, assigning [reference_offset = x]
    subtracts [x] from the stored coordinates again, without adding back
    the previous reference offset: assigning the same offset twice
    subtracts it twice.  Assigning [origin_offset = o'] also runs
    [_getCoordinates], so it subtracts the current reference offset [r]
    from the stored coordinates once more (they become [c - r], [c] being
    the stored coordinates before) and the absolute coordinates become
    [c - r + o']. *)
Theorem nl_offset_setters_subtract_again (s : nl_var) (cs : list Q)
    (v : string) (q : quantity) (r o x : Q) :
  nl_made_dimensionless s = false ->
  nl_coord_unit s = nl_unit s ->
  nl_coordinates s = map Fin cs ->
  qto (nl_reference_offset s) (nl_unit s) = Ok (Fin r) ->
  qto (nl_origin_offset s) (nl_unit s) = Ok (Fin o) ->
  assign_and_check_unit_consistency v (Some (nl_unit s)) = Ok q ->
  qto q (nl_unit s) = Ok (Fin x) ->
  nl_set_reference_offset s v =
    (Ok (map (fun c => Fin (c + - x + o)) cs),
     mkNL (map (fun c => Fin (c + - x)) cs) (nl_unit s) q (nl_origin_offset s)
       false (nl_unit s)) /\
  nl_set_reference_offset (snd (nl_set_reference_offset s v)) v =
    (Ok (map (fun c => Fin (c + - x + - x + o)) cs),
     mkNL (map (fun c => Fin (c + - x + - x)) cs) (nl_unit s) q
       (nl_origin_offset s) false (nl_unit s)) /\
  nl_set_origin_offset s v =
    (Ok (map (fun c => Fin (c + - r + x)) cs),
     mkNL (map (fun c => Fin (c + - r)) cs) (nl_unit s) (nl_reference_offset s)
       q false (nl_unit s)).
Proof.
  destruct s as [c0 cu ro oo made u]; cbn [nl_made_dimensionless nl_coord_unit
    nl_coordinates nl_reference_offset nl_origin_offset nl_unit].
  intros Hm Hu Hc Hr Ho Hq Hx. subst made cu c0.
  assert (E1 : nl_set_reference_offset (mkNL (map Fin cs) u ro oo false u) v =
    (Ok (map (fun c => Fin (c + - x + o)) cs),
     mkNL (map (fun c => Fin (c + - x)) cs) u q oo false u)).
  { unfold nl_set_reference_offset. cbn [nl_unit nl_coordinates nl_coord_unit
      nl_origin_offset nl_made_dimensionless]. rewrite Hq.
    rewrite (nl_get_coordinates_plain _ cs x o) by (cbn [nl_made_dimensionless nl_coord_unit nl_unit nl_coordinates
        nl_reference_offset nl_origin_offset]; first [reflexivity | assumption]).
    reflexivity. }
  split; [exact E1|]. split.
  - rewrite E1. cbn [snd]. unfold nl_set_reference_offset.
    cbn [nl_unit nl_coordinates nl_coord_unit nl_origin_offset
      nl_made_dimensionless]. rewrite Hq.
    rewrite (nl_get_coordinates_plain _ (map (fun c => (c + - x)%Q) cs) x o)
      by (cbn [nl_made_dimensionless nl_coord_unit nl_unit nl_coordinates
        nl_reference_offset nl_origin_offset];
          rewrite ?map_map; first [reflexivity | assumption]).
    rewrite !map_map. reflexivity.
  - unfold nl_set_origin_offset. cbn [nl_unit nl_coordinates nl_coord_unit
      nl_reference_offset nl_made_dimensionless]. rewrite Hq.
    rewrite (nl_get_coordinates_plain _ cs r x) by (cbn [nl_made_dimensionless nl_coord_unit nl_unit nl_coordinates
        nl_reference_offset nl_origin_offset]; first [reflexivity | assumption]).
    reflexivity.
Qed.

Lemma nl_offset_setters_subtract_again_witness :
  nl_set_reference_offset
    (snd (nl_set_reference_offset
            (mkNL [Fin 1; Fin 2] gauss (mkQ (Fin 0) gauss) (mkQ (Fin 3) gauss)
               false gauss) "1 G")) "1 G" =
    (Ok [Fin (1 + - inject_Z 1 + - inject_Z 1 + 3);
         Fin (2 + - inject_Z 1 + - inject_Z 1 + 3)],
     mkNL [Fin (1 + - inject_Z 1 + - inject_Z 1);
           Fin (2 + - inject_Z 1 + - inject_Z 1)] gauss
       (mkQ (Fin (inject_Z 1)) gauss) (mkQ (Fin 3) gauss) false gauss).
Proof.
  exact (proj1 (proj2 (nl_offset_setters_subtract_again
    (mkNL [Fin 1; Fin 2] gauss (mkQ (Fin 0) gauss) (mkQ (Fin 3) gauss) false gauss)
    [1; 2]%Q "1 G" (mkQ (Fin (inject_Z 1)) gauss) 0%Q 3%Q (inject_Z 1)
    eq_refl eq_refl eq_refl ltac:(vm_compute; reflexivity)
    ltac:(vm_compute; reflexivity) ltac:(vm_compute; reflexivity)
    ltac:(vm_compute; reflexivity)))).
Defined.

(** ** More of the code: the [ControlledVariable] facade *)

(** [number_of_points] accepts a Python [bool] because [bool] is a
    subclass of [int]: [False] compares as 0 and raises [ValueError], while
    [True] passes the checks as the count 1 but the object stored (and
    formatted by the truncation warning, issued when the stored count is
    above 1) is [True] itself, so on an arbitrarily sampled variable the
    result differs from assigning the integer 1; on the linear variable
    [True] is stored before the coordinates are recomputed.  [None] and
    strings raise [TypeError]. *)
Theorem cv_number_of_points_bool (gc : gcv_state -> result gcv_state)
    (g : gcv_state) :
  cv_set_number_of_points gc g (PBool false) = Err ValueError /\
  cv_set_number_of_points gc g PNone = Err TypeError /\
  (forall s, cv_set_number_of_points gc g (PStr s) = Err TypeError) /\
  (forall n, variable_type g <> linear_type -> g_number_of_points g = PInt n ->
     1 <= n ->
     cv_set_number_of_points gc g (PBool true) =
       Ok (g_with_number_of_points g (PBool true),
           if 1 <? n then [TruncationWarning (PInt n) (PBool true)] else []) /\
     cv_set_number_of_points gc g (PBool true) <>
       cv_set_number_of_points gc g (PInt 1)) /\
  (variable_type g = linear_type ->
     cv_set_number_of_points gc g (PBool true) =
       (g' <- gc (g_with_number_of_points g (PBool true)) ;; Ok (g', []))).
Proof.
  split; [reflexivity|]. split; [reflexivity|]. split; [reflexivity|].
  split.
  - intros n Hl Hn H1. unfold cv_set_number_of_points. cbn [py_int_value Z.leb Z.compare].
    destruct (String.eqb_spec (variable_type g) linear_type) as [E|_];
      [contradiction|]. cbn [negb]. rewrite Hn. cbn [py_int_value].
    assert (L : (n <? 1) = false) by (apply Z.ltb_ge; lia). rewrite L.
    split; [reflexivity|].
    intros E. injection E as E. discriminate E.
  - intros Hl. unfold cv_set_number_of_points. cbn [py_int_value].
    rewrite Hl, String.eqb_refl. reflexivity.
Qed.

Lemma cv_number_of_points_bool_witness :
  cv_set_number_of_points (fun g => Ok g)
    (example_gcv arbitrary_type five_values) (PBool true) =
  Ok (g_with_number_of_points (example_gcv arbitrary_type five_values) (PBool true),
      [TruncationWarning (PInt 5) (PBool true)]).
Proof.
  exact (proj1 (proj1 (proj2 (proj2 (proj2 (cv_number_of_points_bool (fun g => Ok g)
    (example_gcv arbitrary_type five_values))))) 5
    ltac:(discriminate) eq_refl ltac:(lia))).
Defined.

